(** * novel_agent.py: a sequential prompt-orchestration script

    A shallow embedding of [src/novel_agent.py] and the proofs of the
    properties its specification states.

    Layout of the development:
    - [Py]: the Python built-ins the script relies on ([str.strip], [int],
      [str] of an integer, [str.join], [repr] of a dict, [range]);
    - the remote chat model, taken as a parameter ([Remote]);
    - a state-and-exception monad [M] for console I/O, remote calls and the
      exceptions that abort a run;
    - the script itself: [call_deepseek_chat], the four actions and
      [NovelAgent.run];
    - observations on the event log of a run, a small program logic for [M],
      and the theorems. *)

From Stdlib Require Import ZArith NArith List Ascii String Lia QArith.
From Stdlib Require Import DecimalString DecimalPos.
From stdpp Require Import base option list strings gmap.

Local Open Scope Z_scope.

(* ===================================================================== *)
(** * Python built-ins *)
(* ===================================================================== *)

(** A Python [str] is represented by its UTF-8 encoding, a [string] of
    bytes.  Concatenation, f-string interpolation and [join] act on the
    encoding exactly as they act on the code points.  The two built-ins that
    look at individual characters, [str.strip] and [int], work on the decoded
    code points. *)
Module Py.

(** ** Code points *)

Definition byte_val (a : ascii) : N := N_of_ascii a.

Definition is_cont (b : N) : bool := ((128 <=? b) && (b <=? 191))%N.

Definition in_range (lo hi b : N) : bool := ((lo <=? b) && (b <=? hi))%N.

(** A byte that does not start a well-formed sequence stands for the lone
    surrogate U+DC00 + byte, as Python's [surrogateescape] handler has it:
    such a character is neither white space nor a digit. *)
Definition escaped (b : N) : N := (56320 + b)%N.

(** The range allowed for the second byte of a sequence starting with [b0]
    (shortest form only, no encoded surrogates, nothing above U+10FFFF). *)
Definition second_ok (b0 b1 : N) : bool :=
  if (b0 =? 224)%N then in_range 160 191 b1
  else if (b0 =? 237)%N then in_range 128 159 b1
  else if (b0 =? 240)%N then in_range 144 191 b1
  else if (b0 =? 244)%N then in_range 128 143 b1
  else is_cont b1.

Fixpoint decode (s : string) : list N :=
  match s with
  | EmptyString => []
  | String a s1 =>
    let b0 := byte_val a in
    if (b0 <? 128)%N then b0 :: decode s1
    else if in_range 194 223 b0 then
      match s1 with
      | String a1 s2 =>
        let b1 := byte_val a1 in
        if is_cont b1
        then ((b0 - 192) * 64 + (b1 - 128))%N :: decode s2
        else escaped b0 :: decode s1
      | EmptyString => escaped b0 :: decode s1
      end
    else if in_range 224 239 b0 then
      match s1 with
      | String a1 (String a2 s3) =>
        let b1 := byte_val a1 in
        let b2 := byte_val a2 in
        if second_ok b0 b1 && is_cont b2
        then ((b0 - 224) * 4096 + (b1 - 128) * 64 + (b2 - 128))%N :: decode s3
        else escaped b0 :: decode s1
      | _ => escaped b0 :: decode s1
      end
    else if in_range 240 244 b0 then
      match s1 with
      | String a1 (String a2 (String a3 s4)) =>
        let b1 := byte_val a1 in
        let b2 := byte_val a2 in
        let b3 := byte_val a3 in
        if second_ok b0 b1 && is_cont b2 && is_cont b3
        then ((b0 - 240) * 262144 + (b1 - 128) * 4096
              + (b2 - 128) * 64 + (b3 - 128))%N :: decode s4
        else escaped b0 :: decode s1
      | _ => escaped b0 :: decode s1
      end
    else escaped b0 :: decode s1
  end.

(** ** [str.isspace] on one character, [str.strip] *)

(** The characters [str.strip()] removes: those with the Unicode white-space
    property, plus the four ASCII separators U+001C..U+001F. *)
Definition isspace (c : N) : bool :=
  in_range 9 13 c || in_range 28 32 c
  || (c =? 133)%N || (c =? 160)%N || (c =? 5760)%N
  || in_range 8192 8202 c
  || (c =? 8232)%N || (c =? 8233)%N || (c =? 8239)%N || (c =? 8287)%N
  || (c =? 12288)%N.

Fixpoint lstrip_by (p : N -> bool) (l : list N) : list N :=
  match l with
  | [] => []
  | c :: r => if p c then lstrip_by p r else l
  end.

Definition strip_by (p : N -> bool) (l : list N) : list N :=
  rev (lstrip_by p (rev (lstrip_by p l))).

(** [s.strip()], on code points. *)
Definition strip (l : list N) : list N := strip_by isspace l.

(** ** [int(s)] *)

(** The code points of DIGIT ZERO of every decimal-digit script (general
    category Nd, Unicode 14): each is followed by its digits ONE to NINE. *)
Definition decimal_zeros : list N :=
  [ 48; 1632; 1776; 1984; 2406; 2534; 2662; 2790; 2918; 3046; 3174; 3302;
    3430; 3558; 3664; 3792; 3872; 4160; 4240; 6112; 6160; 6470; 6608; 6784;
    6800; 6992; 7088; 7232; 7248; 42528; 43216; 43264; 43472; 43504; 43600;
    44016; 65296; 66720; 68912; 69734; 69872; 69942; 70096; 70384; 70736;
    70864; 71248; 71360; 71472; 71904; 72016; 72784; 73040; 73120; 92768;
    92864; 93008; 120782; 120792; 120802; 120812; 120822; 123200; 123632;
    125264; 130032 ]%N.

Fixpoint decimal_in (zeros : list N) (c : N) : option Z :=
  match zeros with
  | [] => None
  | z :: zs =>
    if in_range z (z + 9) c then Some (Z.of_N (c - z)) else decimal_in zs c
  end.

(** The decimal value of a character, if it is a decimal digit. *)
Definition decimal (c : N) : option Z := decimal_in decimal_zeros c.

(** The white space [int] itself skips around the number: the non-ASCII
    white space of [isspace], and of ASCII only tab, line feed, vertical
    tab, form feed, carriage return and space. *)
Definition int_isspace (c : N) : bool :=
  if (c <? 127)%N then in_range 9 13 c || (c =? 32)%N else isspace c.

Definition underscore : N := 95%N.

(** Digits after the first: a digit extends the number, one underscore may
    separate two digits. [pending] says that the last character read was an
    underscore. *)
Fixpoint int_digits (acc : Z) (pending : bool) (l : list N) : option Z :=
  match l with
  | [] => if pending then None else Some acc
  | c :: r =>
    if (c =? underscore)%N
    then (if pending then None else int_digits acc true r)
    else match decimal c with
         | Some d => int_digits (acc * 10 + d) false r
         | None => None
         end
  end.

(** An unsigned literal starts with a digit. *)
Definition int_unsigned (l : list N) : option Z :=
  match l with
  | [] => None
  | c :: r =>
    match decimal c with
    | Some d => int_digits d false r
    | None => None
    end
  end.

(** [int(s)] in base ten: [Some n] when the call returns [n], [None] when it
    raises [ValueError].  (The interpreter's configurable cap on the number
    of digits, [sys.set_int_max_str_digits], is not part of the model.) *)
Definition int (l : list N) : option Z :=
  match strip_by int_isspace l with
  | 43%N :: r => int_unsigned r
  | 45%N :: r => Z.opp <$> int_unsigned r
  | r => int_unsigned r
  end.

(** ** [str(n)] for an integer, as f-strings interpolate it *)

Definition str (n : Z) : string := NilZero.string_of_int (Z.to_int n).

(** ** [sep.join(parts)] *)

Definition join (sep : string) (parts : list string) : string :=
  String.concat sep parts.

(** ** [range(start, stop)] *)

Fixpoint count_up (start : Z) (n : nat) : list Z :=
  match n with
  | O => []
  | S n' => start :: count_up (start + 1) n'
  end.

Definition range (start stop : Z) : list Z :=
  count_up start (Z.to_nat (stop - start)).

(** ** [repr] of a string and of a dict *)

Fixpoint contains (a : ascii) (s : string) : bool :=
  match s with
  | EmptyString => false
  | String b r => if Ascii.eqb a b then true else contains a r
  end.

Definition hex_digit (n : N) : ascii :=
  if (n <? 10)%N then ascii_of_N (48 + n) else ascii_of_N (87 + n).

(** The escape of one byte inside quotes [q].  Bytes of a multi-byte
    character are kept: every non-ASCII character is taken to be printable,
    which holds for the CJK text this script formats (Python would spell a
    non-printable one as a [\u] escape). *)
Definition repr_byte (q : ascii) (a : ascii) : string :=
  let b := byte_val a in
  if Ascii.eqb a q then String "\" (String a "")
  else if (b =? 92)%N then "\\"
  else if (b =? 9)%N then "\t"
  else if (b =? 10)%N then "\n"
  else if (b =? 13)%N then "\r"
  else if (b <? 32)%N || (b =? 127)%N
  then String "\" (String "x" (String (hex_digit (b / 16))
                                 (String (hex_digit (b mod 16)) "")))
  else String a "".

Fixpoint repr_body (q : ascii) (s : string) : string :=
  match s with
  | EmptyString => ""
  | String a r => repr_byte q a +:+ repr_body q r
  end.

Definition dquote : ascii := ascii_of_N 34.

(** [repr(s)]: single quotes, unless the string holds a single quote and no
    double quote. *)
Definition repr_str (s : string) : string :=
  let q : ascii := if contains "'" s && negb (contains dquote s)
                   then dquote else "'"%char in
  String q (repr_body q s +:+ String q "").

(** [repr(d)] of a dict of strings; [d] lists the items in insertion
    order, which is the order Python prints them in. *)
Definition repr_item (kv : string * string) : string :=
  repr_str kv.1 +:+ ": " +:+ repr_str kv.2.

Definition repr_dict (d : list (string * string)) : string :=
  "{" +:+ join ", " (repr_item <$> d) +:+ "}".

End Py.

(** The line feed that the source writes as a backslash escape. *)
Definition nl : string := String (ascii_of_N 10) "".

(* ===================================================================== *)
(** * The remote chat model *)
(* ===================================================================== *)

(** A message as the actions build it: a dict with the keys [role] and
    [content]. *)
Abbreviation Message := (gmap string string).

(** A message as LangChain takes it. *)
Inductive ChatMessage : Type :=
| SystemMessage (content : string)
| HumanMessage (content : string).

(** The keyword arguments [ChatOpenAI] is constructed with.  The
    temperature is only handed on to the client: it is kept as the decimal
    fraction the source writes. *)
Record ChatOpenAI_args : Type := {
  model : string;
  temperature : Q;
  openai_api_base : string;
  openai_api_key : string
}.

(** One request: the client's configuration and the messages it sends. *)
Record Request : Type := {
  client : ChatOpenAI_args;
  chat_messages : list ChatMessage
}.

(** The object a call yields, as the map of its attributes. *)
Abbreviation Response := (gmap string string).

(** The LangChain client and the service behind it are not part of the
    repository: they are a parameter.  [remote k req] is the outcome of the
    request [req] when [k] requests were made before it in this run: a
    response, or [None] when the call raises. *)
Definition Remote : Type := nat -> Request -> option Response.

(* ===================================================================== *)
(** * Console, exceptions and the monad of the script *)
(* ===================================================================== *)

Inductive exn : Type :=
| ValueError
| EOFError
| RemoteError.

(** What a run does to the outside world, in order. *)
Inductive Event : Type :=
| EInput (prompt : string) (line : option string)
| EPrint (text : string)
| ECall (req : Request) (result : option Response).

Record State : Type := {
  stdin : list string;     (* the lines still to be read *)
  log : list Event         (* what happened so far, oldest first *)
}.

Inductive outcome (A : Type) : Type :=
| Returned (a : A)
| Raised (e : exn).
Arguments Returned {A} a.
Arguments Raised {A} e.

Definition M (A : Type) : Type := State -> outcome A * State.

Definition ret {A} (a : A) : M A := fun st => (Returned a, st).

Definition bind {A B} (m : M A) (k : A -> M B) : M B :=
  fun st =>
    match m st with
    | (Returned a, st') => k a st'
    | (Raised e, st') => (Raised e, st')
    end.

Definition raise {A} (e : exn) : M A := fun st => (Raised e, st).

(** [try: m except e: handler] *)
Definition try_except {A} (m : M A) (e : exn) (handler : M A) : M A :=
  fun st =>
    match m st with
    | (Returned a, st') => (Returned a, st')
    | (Raised e', st') =>
      match e, e' with
      | ValueError, ValueError | EOFError, EOFError
      | RemoteError, RemoteError => handler st'
      | _, _ => (Raised e', st')
      end
    end.

Declare Scope monad_scope.
Delimit Scope monad_scope with monad.
Bind Scope monad_scope with M.
Notation "x <- m ;; k" := (bind m (fun x => k))
  (at level 100, m at next level, right associativity) : monad_scope.
Notation "m ;; k" := (bind m (fun _ => k))
  (at level 100, right associativity) : monad_scope.
Local Open Scope monad_scope.

Definition emit (e : Event) (st : State) : State :=
  {| stdin := stdin st; log := log st ++ [e] |}.

(** [print(text)] *)
Definition print (text : string) : M unit :=
  fun st => (Returned tt, emit (EPrint text) st).

(** [input(prompt)]: the next line, or [EOFError] when there is none. *)
Definition input (prompt : string) : M string :=
  fun st =>
    match stdin st with
    | line :: rest =>
      (Returned line,
       {| stdin := rest; log := log st ++ [EInput prompt (Some line)] |})
    | [] => (Raised EOFError, emit (EInput prompt None) st)
    end.

(** The requests made so far. *)
Definition requests (l : list Event) : list Request :=
  omap (fun e => match e with ECall req _ => Some req | _ => None end) l.

(** [llm(chat_messages)] for the client [llm = ChatOpenAI(...)]. *)
Definition invoke (remote : Remote) (req : Request) : M Response :=
  fun st =>
    let result := remote (length (requests (log st))) req in
    (match result with
     | Some response => Returned response
     | None => Raised RemoteError
     end,
     emit (ECall req result) st).

(** [int(s)], raising [ValueError]. *)
Definition int_ (s : list N) : M Z :=
  match Py.int s with
  | Some n => ret n
  | None => raise ValueError
  end.

(** [for x in xs: s = body(x, s)], the loop state [s] standing for the
    variables the body updates. *)
Fixpoint for_each {S} (xs : list Z) (body : Z -> S -> M S) (s : S) : M S :=
  match xs with
  | [] => ret s
  | x :: xs' => s' <- body x s ;; for_each xs' body s'
  end.

(** [getattr(obj, name, default)] *)
Definition getattr (obj : Response) (name default : string) : string :=
  match obj !! name with
  | Some v => v
  | None => default
  end.

(** [d.get(key, default)] *)
Definition get_or (d : Message) (key default : string) : string :=
  match d !! key with
  | Some v => v
  | None => default
  end.

(* ===================================================================== *)
(** * The script *)
(* ===================================================================== *)

(** ** 1) The LLM call (lines 34-60) *)

(** The dict-to-LangChain conversion of one message (the body of the loop
    at lines 45-51). *)
Definition to_chat_message (msg : Message) : ChatMessage :=
  let role := msg !! "role" in
  let content := get_or msg "content" "" in
  if bool_decide (role = Some "system")
  then SystemMessage content
  else HumanMessage content.

Definition default_model : string := "deepseek-chat".
Definition default_temperature : Q := 7 # 10.

(** The client every call of the script ends up with: no caller passes a
    model or a temperature. *)
Definition default_client : ChatOpenAI_args :=
  {| model := default_model;
     temperature := default_temperature;
     openai_api_base := "https://api.deepseek.com/v1";
     openai_api_key := "YOUR_DEEPSEEK_KEY" |}.

(** The request a call with these arguments sends.  An argument the caller
    leaves out is [None] and takes the default of the signature. *)
Definition chat_request (messages : list Message)
    (model : option string) (temperature : option Q) : Request :=
  let base_url := "https://api.deepseek.com/v1" in
  let api_key := "YOUR_DEEPSEEK_KEY" in
  let chat_messages := to_chat_message <$> messages in
  {| client := {| model := default default_model model;
                  temperature := default default_temperature temperature;
                  openai_api_base := base_url;
                  openai_api_key := api_key |};
     chat_messages := chat_messages |}.

Definition call_deepseek_chat (ChatOpenAI : Remote) (messages : list Message)
    (model : option string) (temperature : option Q) : M string :=
  response <- invoke ChatOpenAI (chat_request messages model temperature) ;;
  ret (getattr response "content" "").

(** ** 2) The actions (lines 67-160) *)

Module GenerateOutline.

Definition system_prompt : string :=
  "你是一位专职于写作规划的AI，请根据用户提供的信息生成详细的小说大纲，包括章节的主要事件、转折等。".

Definition user_prompt (title theme : string)
    (main_characters : list (string * string))
    (plot_summary : string) (chapter_count : Z) : string :=
  "请根据以下信息生成小说大纲：" +:+ nl
  +:+ "【标题】" +:+ title +:+ nl
  +:+ "【主题】" +:+ theme +:+ nl
  +:+ "【主要角色】" +:+ Py.repr_dict main_characters +:+ nl
  +:+ "【剧情概述】" +:+ plot_summary +:+ nl
  +:+ "【预计章节数】" +:+ Py.str chapter_count +:+ nl
  +:+ "请用分章节的方式列出主要内容，并保持条理清晰。".

Definition messages (title theme : string)
    (main_characters : list (string * string))
    (plot_summary : string) (chapter_count : Z) : list Message :=
  [ {[ "role" := "system"; "content" := system_prompt ]};
    {[ "role" := "user";
       "content" := user_prompt title theme main_characters
                      plot_summary chapter_count ]} ].

Definition run (ChatOpenAI : Remote) (title theme : string)
    (main_characters : list (string * string))
    (plot_summary : string) (chapter_count : Z) : M string :=
  call_deepseek_chat ChatOpenAI
    (messages title theme main_characters plot_summary chapter_count)
    None None.

(** The request this action sends. *)
Definition request (title theme : string)
    (main_characters : list (string * string))
    (plot_summary : string) (chapter_count : Z) : Request :=
  chat_request
    (messages title theme main_characters plot_summary chapter_count)
    None None.

End GenerateOutline.

Module WriteChapter.

Definition default_target_word_count : Z := 2000.

Definition system_prompt : string :=
  "你是一位优秀的小说作者，请根据用户提供的小说大纲和前文摘要，写出连贯、完整的本章节正文，文笔优美并注意与前文呼应。".

Definition user_prompt (outline prev_summaries chapter_title : string)
    (chapter_index : Z) (target_word_count : option Z) : string :=
  let target_word_count :=
    default default_target_word_count target_word_count in
  "【小说大纲】" +:+ nl +:+ outline +:+ nl +:+ nl
  +:+ "【前文摘要】" +:+ nl +:+ prev_summaries +:+ nl +:+ nl
  +:+ "请写第" +:+ Py.str chapter_index +:+ "章：《" +:+ chapter_title
  +:+ "》，目标字数约 " +:+ Py.str target_word_count +:+ "。".

Definition messages (outline prev_summaries chapter_title : string)
    (chapter_index : Z) (target_word_count : option Z) : list Message :=
  [ {[ "role" := "system"; "content" := system_prompt ]};
    {[ "role" := "user";
       "content" := user_prompt outline prev_summaries chapter_title
                      chapter_index target_word_count ]} ].

Definition run (ChatOpenAI : Remote)
    (outline prev_summaries chapter_title : string)
    (chapter_index : Z) (target_word_count : option Z) : M string :=
  call_deepseek_chat ChatOpenAI
    (messages outline prev_summaries chapter_title chapter_index
       target_word_count)
    None None.

(** The request this action sends. *)
Definition request (outline prev_summaries chapter_title : string)
    (chapter_index : Z) (target_word_count : option Z) : Request :=
  chat_request
    (messages outline prev_summaries chapter_title chapter_index
       target_word_count)
    None None.

End WriteChapter.

Module ReviewChapter.

Definition system_prompt : string :=
  "你是一位资深编辑，请对输入的小说章节内容进行审阅，指出可改进之处，如情节节奏、人物塑造、文笔风格等，并给出建议。".

Definition user_prompt (chapter_text : string) : string :=
  "这是章节内容：" +:+ nl +:+ nl +:+ chapter_text +:+ nl +:+ nl
  +:+ "请给出详细的修改意见和建议。".

Definition messages (chapter_text : string) : list Message :=
  [ {[ "role" := "system"; "content" := system_prompt ]};
    {[ "role" := "user"; "content" := user_prompt chapter_text ]} ].

Definition run (ChatOpenAI : Remote) (chapter_text : string) : M string :=
  call_deepseek_chat ChatOpenAI (messages chapter_text) None None.

(** The request this action sends. *)
Definition request (chapter_text : string) : Request :=
  chat_request (messages chapter_text) None None.

End ReviewChapter.

Module SummarizeChapter.

Definition system_prompt : string :=
  "你是一位文字总结高手，请为下面的小说章节生成简短且信息密集的摘要，突出本章主要事件、角色发展、与后续剧情可能的衔接。".

Definition user_prompt (chapter_text : string) : string :=
  "章节内容：" +:+ nl +:+ nl +:+ chapter_text +:+ nl +:+ nl
  +:+ "请在200字以内给出本章的精简摘要。".

Definition messages (chapter_text : string) : list Message :=
  [ {[ "role" := "system"; "content" := system_prompt ]};
    {[ "role" := "user"; "content" := user_prompt chapter_text ]} ].

Definition run (ChatOpenAI : Remote) (chapter_text : string) : M string :=
  call_deepseek_chat ChatOpenAI (messages chapter_text) None None.

(** The request this action sends. *)
Definition request (chapter_text : string) : Request :=
  chat_request (messages chapter_text) None None.

End SummarizeChapter.

(** ** 3) The agent (lines 167-233) *)

Module NovelAgent.

(** [f"{title} - 第{i}章"] (line 207) *)
Definition chapter_title (title : string) (i : Z) : string :=
  title +:+ " - 第" +:+ Py.str i +:+ "章".

(** Line 208. *)
Definition prev_summary (i : Z) (all_summaries : list string) : string :=
  if i =? 1 then "(无)" else Py.join nl all_summaries.

(** The body of the loop (lines 207-227), on the two lists it appends to. *)
Definition chapter_cycle (ChatOpenAI : Remote) (title outline : string)
    (i : Z) (lists : list string * list string)
  : M (list string * list string) :=
  let all_chapters := lists.1 in
  let all_summaries := lists.2 in
  let chapter_title := chapter_title title i in
  let prev_summary := prev_summary i all_summaries in
  print (nl +:+ "[系统] 开始写第" +:+ Py.str i +:+ "章：《"
         +:+ chapter_title +:+ "》...") ;;
  chapter_text <- WriteChapter.run ChatOpenAI outline prev_summary
                    chapter_title i None ;;
  print (nl +:+ "=== 第" +:+ Py.str i +:+ "章初稿 ===" +:+ nl
         +:+ chapter_text) ;;
  print (nl +:+ "[系统] 正在审阅本章...") ;;
  review_text <- ReviewChapter.run ChatOpenAI chapter_text ;;
  print ("=== 审阅意见 ===" +:+ nl +:+ review_text +:+ nl) ;;
  summary_text <- SummarizeChapter.run ChatOpenAI chapter_text ;;
  print ("=== 本章摘要 ===" +:+ nl +:+ summary_text +:+ nl) ;;
  ret (all_chapters ++ [chapter_text], all_summaries ++ [summary_text]).

(** What the agent knows once the user has answered (lines 178-190). *)
Record NovelSpec : Type := {
  title : string;
  theme : string;
  plot_summary : string;
  chapter_count : Z;
  main_characters : list (string * string)
}.

(** The dict literal of lines 187-190. *)
Definition default_main_characters : list (string * string) :=
  [ ("主角", "默认写一个大概的主角信息");
    ("配角A", "可自行扩展") ].

(** Lines 181-185: the count the user typed, or 5. *)
Definition read_chapter_count : M Z :=
  chapter_count_str <- input ("你想要多少章？(默认5)：" +:+ nl +:+ "> ") ;;
  try_except (int_ (Py.strip (Py.decode chapter_count_str)))
    ValueError (ret 5).

(** Lines 178-190. *)
Definition read_spec : M NovelSpec :=
  title <- input ("请输入小说标题：" +:+ nl +:+ "> ") ;;
  theme <- input ("请输入小说主题或背景：" +:+ nl +:+ "> ") ;;
  plot_summary <- input ("请输入故事的概述：" +:+ nl +:+ "> ") ;;
  chapter_count <- read_chapter_count ;;
  let main_characters := default_main_characters in
  ret {| title := title; theme := theme; plot_summary := plot_summary;
         chapter_count := chapter_count;
         main_characters := main_characters |}.

(** Lines 203-227: the loop over the chapters. *)
Definition write_chapters (ChatOpenAI : Remote) (title outline : string)
    (chapter_count : Z) : M (list string * list string) :=
  let all_chapters := [] in
  let all_summaries := [] in
  for_each (Py.range 1 (chapter_count + 1))
    (chapter_cycle ChatOpenAI title outline) (all_chapters, all_summaries).

Definition run (ChatOpenAI : Remote) : M unit :=
  spec <- read_spec ;;
  print (nl +:+ "[系统] 正在生成大纲，请稍候..." +:+ nl) ;;
  outline <- GenerateOutline.run ChatOpenAI (title spec) (theme spec)
               (main_characters spec) (plot_summary spec)
               (chapter_count spec) ;;
  print "=== 小说大纲 ===" ;;
  print outline ;;
  lists <- write_chapters ChatOpenAI (title spec) outline
             (chapter_count spec) ;;
  let all_chapters := lists.1 in
  print (nl +:+ nl +:+ "=== 全部章节完成 ===" +:+ nl) ;;
  let full_novel := Py.join nl all_chapters in
  print ("=== 以下是完整小说内容 ===" +:+ nl) ;;
  print full_novel ;;
  print (nl +:+ "=== 写作结束，感谢使用！ ===").

End NovelAgent.

(** A run of the script on the lines the user types. *)
Definition start (lines : list string) : State :=
  {| stdin := lines; log := [] |}.

Definition session (ChatOpenAI : Remote) (lines : list string)
  : outcome unit * State :=
  NovelAgent.run ChatOpenAI (start lines).

Definition session_log (ChatOpenAI : Remote) (lines : list string)
  : list Event :=
  log (session ChatOpenAI lines).2.

(* ===================================================================== *)
(** * Observations on a run *)
(* ===================================================================== *)

(** The text [call_deepseek_chat] hands back for a response. *)
Definition text_of (response : Response) : string :=
  getattr response "content" "".

Definition printed (l : list Event) : list string :=
  omap (fun e => match e with EPrint text => Some text | _ => None end) l.

(** The four kinds of request, told apart by their system prompt. *)
Inductive Kind : Type := KOutline | KWrite | KReview | KSummarize.

Definition Kind_eqb (a b : Kind) : bool :=
  match a, b with
  | KOutline, KOutline | KWrite, KWrite
  | KReview, KReview | KSummarize, KSummarize => true
  | _, _ => false
  end.

Definition system_content (req : Request) : option string :=
  match chat_messages req with
  | SystemMessage content :: _ => Some content
  | _ => None
  end.

Definition user_content (req : Request) : option string :=
  match chat_messages req with
  | [_; HumanMessage content] => Some content
  | _ => None
  end.

Definition kind_of (req : Request) : option Kind :=
  match system_content req with
  | Some c =>
    if String.eqb c GenerateOutline.system_prompt then Some KOutline
    else if String.eqb c WriteChapter.system_prompt then Some KWrite
    else if String.eqb c ReviewChapter.system_prompt then Some KReview
    else if String.eqb c SummarizeChapter.system_prompt then Some KSummarize
    else None
  | None => None
  end.

Definition is_kind (k : Kind) (req : Request) : bool :=
  match kind_of req with
  | Some k' => Kind_eqb k k'
  | None => false
  end.

(** The requests of kind [k], in the order they were made. *)
Definition sent (k : Kind) (l : list Event) : list Request :=
  List.filter (is_kind k) (requests l).

(** The texts the calls of kind [k] returned, in the order they came. *)
Definition returned (k : Kind) (l : list Event) : list string :=
  omap (fun e => match e with
                 | ECall req (Some response) =>
                   if is_kind k req then Some (text_of response) else None
                 | _ => None
                 end) l.

(** The remote call never raises. *)
Definition never_raises (remote : Remote) : Prop :=
  forall k req, is_Some (remote k req).

(** Two remotes that answer alike, except to review requests. *)
Definition agree_off_review (remote1 remote2 : Remote) : Prop :=
  forall k req, is_kind KReview req = false -> remote1 k req = remote2 k req.

(** The remote answers every review request. *)
Definition answers_reviews (remote : Remote) : Prop :=
  forall k req, is_kind KReview req = true -> is_Some (remote k req).

(** The three requests of the cycle of chapter [i], given the outline and
    the texts and summaries that the write and summarize calls of the run
    returned. *)
Definition cycle_requests (title outline : string)
    (texts summaries : list string) (i : Z) : list Request :=
  let before := Z.to_nat (i - 1) in
  let chapter_text := nth before texts "" in
  [ WriteChapter.request outline
      (NovelAgent.prev_summary i (take before summaries))
      (NovelAgent.chapter_title title i) i None;
    ReviewChapter.request chapter_text;
    SummarizeChapter.request chapter_text ].

(** The outline the run obtained (the empty text if it obtained none). *)
Definition outline_text (l : list Event) : string :=
  match returned KOutline l with
  | text :: _ => text
  | [] => ""
  end.

(** The count the agent works with, as a function of the line typed. *)
Definition effective_chapter_count (chapter_count_str : string) : Z :=
  match Py.int (Py.strip (Py.decode chapter_count_str)) with
  | Some n => n
  | None => 5
  end.

(** ** The events of a run, given the responses *)

Definition emits (evs : list Event) (st : State) : State :=
  {| stdin := stdin st; log := log st ++ evs |}.

(** The three responses of one cycle. *)
Record Answers : Type := {
  written : Response;
  reviewed : Response;
  summarized : Response
}.

Definition chapter_text_of (a : Answers) : string := text_of (written a).
Definition review_text_of (a : Answers) : string := text_of (reviewed a).
Definition summary_text_of (a : Answers) : string := text_of (summarized a).

(** What the cycle of chapter [i] adds to the log when its calls are
    answered by [a]. *)
Definition cycle_events (title outline : string) (i : Z)
    (all_summaries : list string) (a : Answers) : list Event :=
  let chapter_title := NovelAgent.chapter_title title i in
  [ EPrint (nl +:+ "[系统] 开始写第" +:+ Py.str i +:+ "章：《"
            +:+ chapter_title +:+ "》...");
    ECall (WriteChapter.request outline
             (NovelAgent.prev_summary i all_summaries) chapter_title i None)
          (Some (written a));
    EPrint (nl +:+ "=== 第" +:+ Py.str i +:+ "章初稿 ===" +:+ nl
            +:+ chapter_text_of a);
    EPrint (nl +:+ "[系统] 正在审阅本章...");
    ECall (ReviewChapter.request (chapter_text_of a)) (Some (reviewed a));
    EPrint ("=== 审阅意见 ===" +:+ nl +:+ review_text_of a +:+ nl);
    ECall (SummarizeChapter.request (chapter_text_of a))
          (Some (summarized a));
    EPrint ("=== 本章摘要 ===" +:+ nl +:+ summary_text_of a +:+ nl) ].

Fixpoint loop_events (title outline : string) (i : Z)
    (all_summaries : list string) (answers : list Answers) : list Event :=
  match answers with
  | [] => []
  | a :: rest =>
    cycle_events title outline i all_summaries a
    ++ loop_events title outline (i + 1)
         (all_summaries ++ [summary_text_of a]) rest
  end.

Definition input_events (title theme plot_summary chapter_count_str : string)
  : list Event :=
  [ EInput ("请输入小说标题：" +:+ nl +:+ "> ") (Some title);
    EInput ("请输入小说主题或背景：" +:+ nl +:+ "> ") (Some theme);
    EInput ("请输入故事的概述：" +:+ nl +:+ "> ") (Some plot_summary);
    EInput ("你想要多少章？(默认5)：" +:+ nl +:+ "> ")
           (Some chapter_count_str) ].

Definition outline_events (title theme plot_summary : string)
    (chapter_count : Z) (outlined : Response) : list Event :=
  [ EPrint (nl +:+ "[系统] 正在生成大纲，请稍候..." +:+ nl);
    ECall (GenerateOutline.request title theme
             NovelAgent.default_main_characters plot_summary chapter_count)
          (Some outlined);
    EPrint "=== 小说大纲 ===";
    EPrint (text_of outlined) ].

Definition closing_events (all_chapters : list string) : list Event :=
  [ EPrint (nl +:+ nl +:+ "=== 全部章节完成 ===" +:+ nl);
    EPrint ("=== 以下是完整小说内容 ===" +:+ nl);
    EPrint (Py.join nl all_chapters);
    EPrint (nl +:+ "=== 写作结束，感谢使用！ ===") ].

(** The whole log of a run that no exception aborts. *)
Definition run_events (title theme plot_summary chapter_count_str : string)
    (outlined : Response) (answers : list Answers) : list Event :=
  input_events title theme plot_summary chapter_count_str
  ++ outline_events title theme plot_summary
       (effective_chapter_count chapter_count_str) outlined
  ++ loop_events title (text_of outlined) 1 [] answers
  ++ closing_events (chapter_text_of <$> answers).

(** ** Two runs side by side *)

(** Two states that read the same lines and made the same requests; what
    was printed and what the calls returned may differ. *)
Definition related (st1 st2 : State) : Prop :=
  stdin st1 = stdin st2 /\ requests (log st1) = requests (log st2).

(** Two computations that, from related states, end alike: both return,
    with results related by [P], or both raise the same exception; and the
    final states are related. *)
Definition rel {A} (P : A -> A -> Prop) (m1 m2 : M A) : Prop :=
  forall st1 st2, related st1 st2 ->
    match m1 st1, m2 st2 with
    | (Returned a1, st1'), (Returned a2, st2') =>
      P a1 a2 /\ related st1' st2'
    | (Raised e1, st1'), (Raised e2, st2') =>
      e1 = e2 /\ related st1' st2'
    | _, _ => False
    end.

(** ** Remotes to run the script on *)

(** Every call returns the same text. *)
Definition const_remote (text : string) : Remote :=
  fun _ _ => Some {[ "content" := text ]}.

(** The call number [k] returns the text r[k]. *)
Definition echo_remote : Remote :=
  fun k _ => Some {[ "content" := "r" +:+ Py.str (Z.of_nat k) ]}.

(** A response without a content attribute. *)
Definition mute_remote : Remote :=
  fun _ _ => Some ∅.

(** Like [echo_remote], with another text for the reviews. *)
Definition harsh_remote : Remote :=
  fun k req =>
    if is_kind KReview req
    then Some {[ "content" := "rewrite it" ]}
    else echo_remote k req.

(** Like [echo_remote], with the same text for every draft. *)
Definition terse_remote : Remote :=
  fun k req =>
    if is_kind KWrite req
    then Some {[ "content" := "draft" ]}
    else echo_remote k req.

(** The first call is answered, every later one raises. *)
Definition one_shot_remote : Remote :=
  fun k _ =>
    match k with
    | O => Some {[ "content" := "an outline" ]}
    | S _ => None
    end.

(** ** Runs that an exception may abort *)


(** The requests that the four actions send when they are called as the
    agent calls them. *)
Definition action_request (req : Request) : Prop :=
  (exists title theme chars plot n,
     req = GenerateOutline.request title theme chars plot n)
  \/ (exists outline prev ctitle i,
        req = WriteChapter.request outline prev ctitle i None)
  \/ (exists text, req = ReviewChapter.request text)
  \/ (exists text, req = SummarizeChapter.request text).

(** An event after which the run goes on: a line read, a text printed, a
    call of one of the actions that was answered. *)
Definition regular (e : Event) : Prop :=
  match e with
  | EInput _ (Some _) => True
  | EPrint _ => True
  | ECall req (Some _) => action_request req
  | _ => False
  end.

(** How a computation that reads no input ends, from a log of regular
    events: it leaves the input alone, and either it returns and the log is
    still regular, or it raises at a call of an action that raised, which is
    the last event of the log. *)
Definition ends_regularly {A} (st : State) (r : outcome A * State) : Prop :=
  stdin r.2 = stdin st
  /\ match r.1 with
     | Returned _ => Forall regular (log r.2)
     | Raised RemoteError =>
       exists before req,
         log r.2 = before ++ [ECall req None]
         /\ Forall regular before /\ action_request req
     | Raised _ => False
     end.

Definition well_behaved {A} (m : M A) : Prop :=
  forall st, Forall regular (log st) -> ends_regularly st (m st).

(** Lines 192-233: the run once the answers of the user are read. *)
Definition run_after_spec (ChatOpenAI : Remote)
    (spec : NovelAgent.NovelSpec) : M unit :=
  print (nl +:+ "[系统] 正在生成大纲，请稍候..." +:+ nl) ;;
  outline <- GenerateOutline.run ChatOpenAI
               (NovelAgent.title spec) (NovelAgent.theme spec)
               (NovelAgent.main_characters spec)
               (NovelAgent.plot_summary spec)
               (NovelAgent.chapter_count spec) ;;
  print "=== 小说大纲 ===" ;;
  print outline ;;
  lists <- NovelAgent.write_chapters ChatOpenAI (NovelAgent.title spec)
             outline (NovelAgent.chapter_count spec) ;;
  let all_chapters := lists.1 in
  print (nl +:+ nl +:+ "=== 全部章节完成 ===" +:+ nl) ;;
  let full_novel := Py.join nl all_chapters in
  print ("=== 以下是完整小说内容 ===" +:+ nl) ;;
  print full_novel ;;
  print (nl +:+ "=== 写作结束，感谢使用！ ===").


(** A text made of ASCII white space only: blanks, tabs, line ends and
    the like. *)
Fixpoint ascii_blank (w : string) : bool :=
  match w with
  | EmptyString => true
  | String a r =>
    (Py.byte_val a <? 128)%N && Py.isspace (Py.byte_val a) && ascii_blank r
  end.

(** ** Two runs that show the same *)

(** Two remotes whose answers carry the same text, a response without
    content counting for the empty text; they raise on the same calls. *)
Definition same_texts (remote1 remote2 : Remote) : Prop :=
  forall k req, text_of <$> remote1 k req = text_of <$> remote2 k req.

(** Two states with the same lines to read, the same requests made and
    the same texts printed. *)
Definition alike (st1 st2 : State) : Prop :=
  stdin st1 = stdin st2
  /\ requests (log st1) = requests (log st2)
  /\ printed (log st1) = printed (log st2).

(** Two computations that, from states that are alike, end alike with the
    same result or the same exception. *)
Definition rel_alike {A} (m1 m2 : M A) : Prop :=
  forall st1 st2, alike st1 st2 ->
    match m1 st1, m2 st2 with
    | (Returned a1, st1'), (Returned a2, st2') =>
      a1 = a2 /\ alike st1' st2'
    | (Raised e1, st1'), (Raised e2, st2') =>
      e1 = e2 /\ alike st1' st2'
    | _, _ => False
    end.

(** ** The order of the requests *)

(** The kind of request that follows a request of kind [k]. *)
Definition next_kind (k : Kind) : Kind :=
  match k with
  | KOutline => KWrite
  | KWrite => KReview
  | KReview => KSummarize
  | KSummarize => KWrite
  end.

(** The kind of the request number [n] of a run, counting from 0: the
    outline, then write, review, summarize, over and over. *)
Fixpoint kind_at (n : nat) : Kind :=
  match n with
  | O => KOutline
  | S n' => next_kind (kind_at n')
  end.

(** The requests made so far are in this order, and the next one, if
    there is one, is to be of kind [k]. *)
Definition expects (k : Kind) (st : State) : Prop :=
  kind_of <$> requests (log st)
  = (fun n => Some (kind_at n)) <$> seq 0 (length (requests (log st)))
  /\ kind_at (length (requests (log st))) = k.

(** From a state that expects [k], the computation returns in a state that
    expects [k'], or it raises with the requests still in order. *)
Definition in_turn {A} (k k' : Kind) (m : M A) : Prop :=
  forall st, expects k st ->
    match (m st).1 with
    | Returned _ => expects k' (m st).2
    | Raised _ =>
      kind_of <$> requests (log (m st).2)
      = (fun n => Some (kind_at n))
          <$> seq 0 (length (requests (log (m st).2)))
    end.

(* ===================================================================== *)
(** * Lemmas on the observations *)
(* ===================================================================== *)

Lemma requests_app l1 l2 : requests (l1 ++ l2) = requests l1 ++ requests l2.
Proof. apply omap_app. Qed.

Lemma printed_app l1 l2 : printed (l1 ++ l2) = printed l1 ++ printed l2.
Proof. apply omap_app. Qed.

Lemma returned_app k l1 l2 :
  returned k (l1 ++ l2) = returned k l1 ++ returned k l2.
Proof. apply omap_app. Qed.

(** ** The shape of the requests *)

Lemma outline_request_shape title theme chars plot n :
  GenerateOutline.request title theme chars plot n
  = {| client := default_client;
       chat_messages :=
         [ SystemMessage GenerateOutline.system_prompt;
           HumanMessage
             (GenerateOutline.user_prompt title theme chars plot n) ] |}.
Proof. reflexivity. Qed.

Lemma write_request_shape outline prev ctitle i w :
  WriteChapter.request outline prev ctitle i w
  = {| client := default_client;
       chat_messages :=
         [ SystemMessage WriteChapter.system_prompt;
           HumanMessage
             (WriteChapter.user_prompt outline prev ctitle i w) ] |}.
Proof. reflexivity. Qed.

Lemma review_request_shape text :
  ReviewChapter.request text
  = {| client := default_client;
       chat_messages :=
         [ SystemMessage ReviewChapter.system_prompt;
           HumanMessage (ReviewChapter.user_prompt text) ] |}.
Proof. reflexivity. Qed.

Lemma summarize_request_shape text :
  SummarizeChapter.request text
  = {| client := default_client;
       chat_messages :=
         [ SystemMessage SummarizeChapter.system_prompt;
           HumanMessage (SummarizeChapter.user_prompt text) ] |}.
Proof. reflexivity. Qed.

(* ===================================================================== *)
(** * Running the script when no call raises *)
(* ===================================================================== *)

Lemma bind_returned {A B} (m : M A) (k : A -> M B) st a st' :
  m st = (Returned a, st') -> bind m k st = k a st'.
Proof. intros H. unfold bind. now rewrite H. Qed.

Lemma emits_emits evs1 evs2 st :
  emits evs2 (emits evs1 st) = emits (evs1 ++ evs2) st.
Proof. unfold emits. cbn. now rewrite <- app_assoc. Qed.

Lemma print_emits text st :
  print text st = (Returned tt, emits [EPrint text] st).
Proof. reflexivity. Qed.

Lemma input_emits prompt line rest l :
  input prompt {| stdin := line :: rest; log := l |}
  = (Returned line,
     {| stdin := rest; log := l ++ [EInput prompt (Some line)] |}).
Proof. reflexivity. Qed.

Lemma call_returns remote messages st :
  never_raises remote ->
  exists response,
    call_deepseek_chat remote messages None None st
    = (Returned (text_of response),
       emits [ECall (chat_request messages None None) (Some response)] st).
Proof.
  intros Hremote.
  destruct (Hremote (length (requests (log st)))
                    (chat_request messages None None)) as [response Hr].
  exists response.
  unfold call_deepseek_chat, bind, invoke. rewrite Hr. reflexivity.
Qed.

(** One cycle appends its eight events and one item to each list. *)
Lemma chapter_cycle_effect remote title outline i chapters summaries st :
  never_raises remote ->
  exists a,
    NovelAgent.chapter_cycle remote title outline i (chapters, summaries) st
    = (Returned (chapters ++ [chapter_text_of a],
                 summaries ++ [summary_text_of a]),
       emits (cycle_events title outline i summaries a) st).
Proof.
  intros Hremote. unfold NovelAgent.chapter_cycle.
  rewrite (bind_returned _ _ _ _ _ (print_emits _ _)).
  unfold WriteChapter.run.
  destruct (call_returns remote
              (WriteChapter.messages outline
                 (NovelAgent.prev_summary i summaries)
                 (NovelAgent.chapter_title title i) i None)
              (emits [EPrint (nl +:+ "[系统] 开始写第" +:+ Py.str i +:+ "章：《"
                              +:+ NovelAgent.chapter_title title i +:+ "》...")] st)
              Hremote) as [w Hw].
  cbn [fst snd].
  rewrite (bind_returned _ _ _ _ _ Hw).
  rewrite (bind_returned _ _ _ _ _ (print_emits _ _)).
  rewrite (bind_returned _ _ _ _ _ (print_emits _ _)).
  unfold ReviewChapter.run.
  match goal with
  | |- context [bind (call_deepseek_chat remote ?ms None None) _ ?s] =>
    destruct (call_returns remote ms s Hremote) as [r Hr]
  end.
  rewrite (bind_returned _ _ _ _ _ Hr).
  rewrite (bind_returned _ _ _ _ _ (print_emits _ _)).
  unfold SummarizeChapter.run.
  match goal with
  | |- context [bind (call_deepseek_chat remote ?ms None None) _ ?s] =>
    destruct (call_returns remote ms s Hremote) as [s' Hs]
  end.
  rewrite (bind_returned _ _ _ _ _ Hs).
  rewrite (bind_returned _ _ _ _ _ (print_emits _ _)).
  exists {| written := w; reviewed := r; summarized := s' |}.
  unfold ret. rewrite !emits_emits. reflexivity.
Qed.

Lemma emits_nil st : emits [] st = st.
Proof. destruct st. unfold emits. cbn. now rewrite app_nil_r. Qed.

(** The loop, by induction on the number of chapters left to write. *)
Lemma for_each_cycles remote title outline n :
  never_raises remote ->
  forall i chapters summaries st,
  exists answers,
    length answers = n /\
    for_each (Py.count_up i n) (NovelAgent.chapter_cycle remote title outline)
      (chapters, summaries) st
    = (Returned (chapters ++ (chapter_text_of <$> answers),
                 summaries ++ (summary_text_of <$> answers)),
       emits (loop_events title outline i summaries answers) st).
Proof.
  intros Hremote. induction n as [|n IH]; intros i chapters summaries st.
  - exists []. split; [reflexivity|]. cbn [Py.count_up for_each fmap list_fmap loop_events].
    unfold ret. now rewrite emits_nil, !app_nil_r.
  - destruct (chapter_cycle_effect remote title outline i chapters summaries
                st Hremote) as [a Ha].
    destruct (IH (i + 1) (chapters ++ [chapter_text_of a])
                 (summaries ++ [summary_text_of a])
                 (emits (cycle_events title outline i summaries a) st))
      as (answers & Hlen & Hrest).
    exists (a :: answers). split; [cbn; now rewrite Hlen|].
    cbn [Py.count_up for_each].
    rewrite (bind_returned _ _ _ _ _ Ha), Hrest, emits_emits.
    cbn [loop_events fmap list_fmap]. now rewrite <- !app_assoc.
Qed.

Lemma write_chapters_effect remote title outline n st :
  never_raises remote ->
  exists answers,
    length answers = Z.to_nat n /\
    NovelAgent.write_chapters remote title outline n st
    = (Returned (chapter_text_of <$> answers, summary_text_of <$> answers),
       emits (loop_events title outline 1 [] answers) st).
Proof.
  intros Hremote. unfold NovelAgent.write_chapters, Py.range.
  destruct (for_each_cycles remote title outline (Z.to_nat (n + 1 - 1))
              Hremote 1 [] [] st) as (answers & Hlen & Hrun).
  exists answers. split.
  - rewrite Hlen. f_equal. lia.
  - exact Hrun.
Qed.

Lemma read_chapter_count_effect line rest l :
  NovelAgent.read_chapter_count {| stdin := line :: rest; log := l |}
  = (Returned (effective_chapter_count line),
     {| stdin := rest;
        log := l ++ [EInput ("你想要多少章？(默认5)：" +:+ nl +:+ "> ")
                            (Some line)] |}).
Proof.
  unfold NovelAgent.read_chapter_count.
  rewrite (bind_returned _ _ _ _ _ (input_emits _ _ _ _)).
  unfold try_except, int_, effective_chapter_count.
  destruct (Py.int (Py.strip (Py.decode line))); reflexivity.
Qed.

Lemma read_spec_effect t th p c rest :
  NovelAgent.read_spec (start (t :: th :: p :: c :: rest))
  = (Returned {| NovelAgent.title := t; NovelAgent.theme := th;
                 NovelAgent.plot_summary := p;
                 NovelAgent.chapter_count := effective_chapter_count c;
                 NovelAgent.main_characters :=
                   NovelAgent.default_main_characters |},
     {| stdin := rest; log := input_events t th p c |}).
Proof.
  unfold NovelAgent.read_spec, start.
  rewrite (bind_returned _ _ _ _ _ (input_emits _ _ _ _)).
  rewrite (bind_returned _ _ _ _ _ (input_emits _ _ _ _)).
  rewrite (bind_returned _ _ _ _ _ (input_emits _ _ _ _)).
  rewrite (bind_returned _ _ _ _ _ (read_chapter_count_effect _ _ _)).
  reflexivity.
Qed.

(** The whole run: it returns, and its log is [run_events]. *)
Lemma session_effect remote t th p c rest :
  never_raises remote ->
  exists outlined answers,
    length answers = Z.to_nat (effective_chapter_count c) /\
    session remote (t :: th :: p :: c :: rest)
    = (Returned tt,
       {| stdin := rest; log := run_events t th p c outlined answers |}).
Proof.
  intros Hremote. unfold session, NovelAgent.run.
  rewrite (bind_returned _ _ _ _ _ (read_spec_effect _ _ _ _ _)).
  cbn [NovelAgent.title NovelAgent.theme NovelAgent.plot_summary
       NovelAgent.chapter_count NovelAgent.main_characters].
  rewrite (bind_returned _ _ _ _ _ (print_emits _ _)).
  unfold GenerateOutline.run.
  match goal with
  | |- context [bind (call_deepseek_chat remote ?ms None None) _ ?s] =>
    destruct (call_returns remote ms s Hremote) as [o Ho]
  end.
  rewrite (bind_returned _ _ _ _ _ Ho).
  rewrite (bind_returned _ _ _ _ _ (print_emits _ _)).
  rewrite (bind_returned _ _ _ _ _ (print_emits _ _)).
  match goal with
  | |- context [bind (NovelAgent.write_chapters remote ?a ?b ?n) _ ?s] =>
    destruct (write_chapters_effect remote a b n s Hremote)
      as (answers & Hlen & Hloop)
  end.
  rewrite (bind_returned _ _ _ _ _ Hloop).
  exists o, answers. split; [exact Hlen|].
  cbn [fst].
  rewrite (bind_returned _ _ _ _ _ (print_emits _ _)).
  rewrite (bind_returned _ _ _ _ _ (print_emits _ _)).
  rewrite (bind_returned _ _ _ _ _ (print_emits _ _)).
  rewrite print_emits, !emits_emits.
  unfold emits, run_events, outline_events, closing_events,
    GenerateOutline.request.
  cbn [stdin log]. reflexivity.
Qed.

(* ===================================================================== *)
(** * What the log of a run shows *)
(* ===================================================================== *)

Lemma count_up_lookup n : forall i (k : nat),
  (k < n)%nat -> Py.count_up i n !! k = Some (i + Z.of_nat k).
Proof.
  induction n as [|n IH]; intros i k Hk; [lia|].
  destruct k as [|k]; cbn [Py.count_up lookup list_lookup].
  - f_equal. lia.
  - change (Py.count_up (i + 1) n !! k = Some (i + Z.of_nat (S k))).
    rewrite IH by lia. f_equal. lia.
Qed.

Lemma count_up_length n i : length (Py.count_up i n) = n.
Proof. revert i. induction n as [|n IH]; intros i; cbn; [|rewrite IH]; reflexivity. Qed.

Lemma range_lookup (n i : Z) :
  1 <= i <= n -> Py.range 1 (n + 1) !! Z.to_nat (i - 1) = Some i.
Proof.
  intros Hi. unfold Py.range. rewrite count_up_lookup by lia. f_equal. lia.
Qed.

(** ** Requests *)

Lemma requests_cycle_events title outline i summaries a :
  requests (cycle_events title outline i summaries a)
  = [ WriteChapter.request outline (NovelAgent.prev_summary i summaries)
        (NovelAgent.chapter_title title i) i None;
      ReviewChapter.request (chapter_text_of a);
      SummarizeChapter.request (chapter_text_of a) ].
Proof. reflexivity. Qed.

(** The requests of the cycles from chapter [i] on, [texts0] and
    [summaries0] being what the chapters before [i] gave. *)
Lemma requests_loop_events title outline answers :
  forall i texts0 summaries0,
    1 <= i ->
    length texts0 = Z.to_nat (i - 1) ->
    length summaries0 = Z.to_nat (i - 1) ->
    requests (loop_events title outline i summaries0 answers)
    = flat_map
        (cycle_requests title outline
           (texts0 ++ (chapter_text_of <$> answers))
           (summaries0 ++ (summary_text_of <$> answers)))
        (Py.count_up i (length answers)).
Proof.
  induction answers as [|a answers IH]; intros i texts0 summaries0 Hi Ht Hs.
  - reflexivity.
  - cbn [loop_events length Py.count_up flat_map fmap list_fmap].
    rewrite requests_app, requests_cycle_events.
    rewrite (IH (i + 1) (texts0 ++ [chapter_text_of a])
                (summaries0 ++ [summary_text_of a]));
      [| lia | rewrite length_app; cbn; lia | rewrite length_app; cbn; lia].
    rewrite <- !app_assoc. cbn [app].
    f_equal. unfold cycle_requests.
    rewrite <- Hs, take_app_length.
    rewrite Hs, <- Ht, nth_middle. reflexivity.
Qed.

Lemma requests_run_events t th p c outlined answers :
  length answers = Z.to_nat (effective_chapter_count c) ->
  requests (run_events t th p c outlined answers)
  = GenerateOutline.request t th NovelAgent.default_main_characters p
      (effective_chapter_count c)
    :: flat_map
         (cycle_requests t (text_of outlined)
            (chapter_text_of <$> answers) (summary_text_of <$> answers))
         (Py.range 1 (effective_chapter_count c + 1)).
Proof.
  intros Hlen. unfold run_events. rewrite !requests_app.
  rewrite (requests_loop_events t (text_of outlined) answers 1 [] [])
    by (reflexivity || lia).
  cbn [app]. unfold Py.range.
  replace (Z.to_nat (effective_chapter_count c + 1 - 1))
    with (length answers) by lia.
  change (requests (closing_events (chapter_text_of <$> answers))) with (@nil Request).
  rewrite app_nil_r. reflexivity.
Qed.

(** ** Texts returned *)

Lemma returned_loop_events k title outline answers :
  forall i summaries0,
    returned k (loop_events title outline i summaries0 answers)
    = match k with
      | KOutline => []
      | KWrite => chapter_text_of <$> answers
      | KReview => review_text_of <$> answers
      | KSummarize => summary_text_of <$> answers
      end.
Proof.
  induction answers as [|a answers IH]; intros i summaries0.
  - destruct k; reflexivity.
  - cbn [loop_events]. rewrite returned_app, IH.
    destruct k; reflexivity.
Qed.

Lemma returned_run_events k t th p c outlined answers :
  returned k (run_events t th p c outlined answers)
  = match k with
    | KOutline => [text_of outlined]
    | KWrite => chapter_text_of <$> answers
    | KReview => review_text_of <$> answers
    | KSummarize => summary_text_of <$> answers
    end.
Proof.
  unfold run_events. rewrite !returned_app, returned_loop_events.
  destruct k; cbn; now rewrite ?app_nil_r.
Qed.

Lemma outline_text_run_events t th p c outlined answers :
  outline_text (run_events t th p c outlined answers) = text_of outlined.
Proof. unfold outline_text. now rewrite returned_run_events. Qed.

(** ** Requests of one kind *)

Lemma is_kind_outline k title theme chars plot n :
  is_kind k (GenerateOutline.request title theme chars plot n)
  = Kind_eqb k KOutline.
Proof. reflexivity. Qed.

Lemma is_kind_write k outline prev ctitle i w :
  is_kind k (WriteChapter.request outline prev ctitle i w) = Kind_eqb k KWrite.
Proof. reflexivity. Qed.

Lemma is_kind_review k text :
  is_kind k (ReviewChapter.request text) = Kind_eqb k KReview.
Proof. reflexivity. Qed.

Lemma is_kind_summarize k text :
  is_kind k (SummarizeChapter.request text) = Kind_eqb k KSummarize.
Proof. reflexivity. Qed.

Lemma filter_write_cycles title outline texts summaries indices :
  List.filter (is_kind KWrite)
    (flat_map (cycle_requests title outline texts summaries) indices)
  = (fun i => WriteChapter.request outline
                (NovelAgent.prev_summary i
                   (take (Z.to_nat (i - 1)) summaries))
                (NovelAgent.chapter_title title i) i None) <$> indices.
Proof.
  induction indices as [|i indices IH]; [reflexivity|].
  cbn [flat_map fmap list_fmap]. rewrite List.filter_app, IH.
  unfold cycle_requests. cbn [List.filter].
  rewrite is_kind_write, is_kind_review, is_kind_summarize. reflexivity.
Qed.

Lemma sent_write_run_events t th p c outlined answers :
  length answers = Z.to_nat (effective_chapter_count c) ->
  sent KWrite (run_events t th p c outlined answers)
  = (fun i => WriteChapter.request (text_of outlined)
                (NovelAgent.prev_summary i
                   (take (Z.to_nat (i - 1)) (summary_text_of <$> answers)))
                (NovelAgent.chapter_title t i) i None)
    <$> Py.range 1 (effective_chapter_count c + 1).
Proof.
  intros Hlen. unfold sent. rewrite requests_run_events by exact Hlen.
  cbn [List.filter]. rewrite is_kind_outline. cbn [Kind_eqb].
  apply filter_write_cycles.
Qed.

(** The write request of chapter [i]. *)
Lemma write_request_of_chapter remote t th p c rest i :
  never_raises remote ->
  1 <= i <= effective_chapter_count c ->
  let l := session_log remote (t :: th :: p :: c :: rest) in
  sent KWrite l !! Z.to_nat (i - 1)
  = Some (WriteChapter.request (outline_text l)
            (NovelAgent.prev_summary i
               (take (Z.to_nat (i - 1)) (returned KSummarize l)))
            (NovelAgent.chapter_title t i) i None).
Proof.
  intros Hremote Hi l. subst l. unfold session_log.
  destruct (session_effect remote t th p c rest Hremote)
    as (o & answers & Hlen & Hrun).
  rewrite Hrun. cbn [snd log].
  rewrite sent_write_run_events by exact Hlen.
  rewrite list_lookup_fmap, range_lookup by exact Hi.
  rewrite outline_text_run_events, returned_run_events. reflexivity.
Qed.

(** ** What is printed last *)

Lemma printed_run_events t th p c outlined answers :
  exists before,
    printed (run_events t th p c outlined answers)
    = before ++ printed (closing_events (chapter_text_of <$> answers)).
Proof.
  unfold run_events. rewrite !printed_app, !app_assoc. eexists. reflexivity.
Qed.

(* ===================================================================== *)
(** * Two runs that differ in the reviews only *)
(* ===================================================================== *)

Lemma related_emit_silent st1 st2 e1 e2 :
  related st1 st2 ->
  requests [e1] = [] -> requests [e2] = [] ->
  related (emit e1 st1) (emit e2 st2).
Proof.
  intros [Hin Hreq] H1 H2. split; [exact Hin|].
  cbn [emit log]. now rewrite !requests_app, H1, H2, Hreq.
Qed.

Lemma rel_ret {A} (P : A -> A -> Prop) a1 a2 :
  P a1 a2 -> rel P (ret a1) (ret a2).
Proof. intros HP st1 st2 Hrel. cbn. split; assumption. Qed.

Lemma rel_raise {A} (P : A -> A -> Prop) e : rel P (raise e) (raise e).
Proof. intros st1 st2 Hrel. cbn. split; [reflexivity|assumption]. Qed.

Lemma rel_bind {A B} (P : A -> A -> Prop) (Q : B -> B -> Prop)
    (m1 m2 : M A) (k1 k2 : A -> M B) :
  rel P m1 m2 ->
  (forall a1 a2, P a1 a2 -> rel Q (k1 a1) (k2 a2)) ->
  rel Q (bind m1 k1) (bind m2 k2).
Proof.
  intros Hm Hk st1 st2 Hrel. unfold bind.
  specialize (Hm st1 st2 Hrel).
  destruct (m1 st1) as [[a1|e1] st1'], (m2 st2) as [[a2|e2] st2'];
    try contradiction.
  - destruct Hm as [HP Hrel']. exact (Hk a1 a2 HP st1' st2' Hrel').
  - exact Hm.
Qed.

(** What is printed does not matter, even when the two texts differ. *)
Lemma rel_print text1 text2 : rel eq (print text1) (print text2).
Proof.
  intros st1 st2 Hrel. cbn. split; [reflexivity|].
  now apply related_emit_silent.
Qed.

Lemma rel_input prompt : rel eq (input prompt) (input prompt).
Proof.
  intros st1 st2 Hrel. pose proof Hrel as [Hin Hreq].
  unfold input. rewrite <- Hin.
  destruct (stdin st1) as [|line rest].
  - split; [reflexivity|]. now apply related_emit_silent.
  - split; [reflexivity|]. split; [reflexivity|].
    cbn [log]. now rewrite !requests_app, Hreq.
Qed.

Lemma rel_int s : rel eq (int_ s) (int_ s).
Proof.
  unfold int_. destruct (Py.int s); [now apply rel_ret|apply rel_raise].
Qed.

Lemma rel_try_except {A} (P : A -> A -> Prop) m1 m2 e h1 h2 :
  rel P m1 m2 -> rel P h1 h2 ->
  rel P (try_except m1 e h1) (try_except m2 e h2).
Proof.
  intros Hm Hh st1 st2 Hrel. unfold try_except.
  specialize (Hm st1 st2 Hrel).
  destruct (m1 st1) as [[a1|e1] st1'], (m2 st2) as [[a2|e2] st2'];
    try contradiction; [exact Hm|].
  destruct Hm as [<- Hrel'].
  destruct e, e1; first [exact (Hh st1' st2' Hrel') | now split].
Qed.

Lemma rel_for_each {S} (P : S -> S -> Prop) xs
    (body1 body2 : Z -> S -> M S) :
  (forall x s1 s2, P s1 s2 -> rel P (body1 x s1) (body2 x s2)) ->
  forall s1 s2, P s1 s2 ->
  rel P (for_each xs body1 s1) (for_each xs body2 s2).
Proof.
  intros Hbody. induction xs as [|x xs IH]; intros s1 s2 HP.
  - now apply rel_ret.
  - cbn [for_each]. eapply rel_bind; [now apply Hbody|]. exact IH.
Qed.

Section TwoRemotes.

Variables remote1 remote2 : Remote.
Hypothesis Hagree : agree_off_review remote1 remote2.
Hypothesis Hanswers1 : answers_reviews remote1.
Hypothesis Hanswers2 : answers_reviews remote2.

(** A call that is no review is answered alike in the two runs. *)
Lemma rel_call_other messages :
  is_kind KReview (chat_request messages None None) = false ->
  rel eq (call_deepseek_chat remote1 messages None None)
         (call_deepseek_chat remote2 messages None None).
Proof.
  intros Hkind st1 st2 [Hin Hreq].
  unfold call_deepseek_chat, bind, invoke, ret.
  rewrite <- Hreq, <- (Hagree _ _ Hkind).
  destruct (remote1 (length (requests (log st1)))
                    (chat_request messages None None)) as [response|].
  - split; [reflexivity|]. split; [exact Hin|].
    cbn [emit log]. now rewrite !requests_app, Hreq.
  - split; [reflexivity|]. split; [exact Hin|].
    cbn [emit log]. now rewrite !requests_app, Hreq.
Qed.

(** A review is answered in both runs, by texts that may differ. *)
Lemma rel_call_review messages :
  is_kind KReview (chat_request messages None None) = true ->
  rel (fun _ _ => True)
      (call_deepseek_chat remote1 messages None None)
      (call_deepseek_chat remote2 messages None None).
Proof.
  intros Hkind st1 st2 [Hin Hreq].
  unfold call_deepseek_chat, bind, invoke, ret.
  destruct (Hanswers1 (length (requests (log st1))) _ Hkind) as [r1 Hr1].
  destruct (Hanswers2 (length (requests (log st2))) _ Hkind) as [r2 Hr2].
  rewrite Hr1, Hr2. split; [exact I|]. split; [exact Hin|].
  cbn [emit log]. now rewrite !requests_app, Hreq.
Qed.

Lemma rel_chapter_cycle title outline i lists :
  rel eq (NovelAgent.chapter_cycle remote1 title outline i lists)
         (NovelAgent.chapter_cycle remote2 title outline i lists).
Proof.
  unfold NovelAgent.chapter_cycle.
  eapply rel_bind; [apply rel_print|]. intros _ _ _.
  eapply rel_bind; [apply rel_call_other; reflexivity|].
  intros chapter_text ? <-.
  eapply rel_bind; [apply rel_print|]. intros _ _ _.
  eapply rel_bind; [apply rel_print|]. intros _ _ _.
  eapply rel_bind; [apply rel_call_review; reflexivity|].
  intros review1 review2 _.
  eapply rel_bind; [apply rel_print|]. intros _ _ _.
  eapply rel_bind; [apply rel_call_other; reflexivity|].
  intros summary_text ? <-.
  eapply rel_bind; [apply rel_print|]. intros _ _ _.
  now apply rel_ret.
Qed.

Lemma rel_read_spec : rel eq NovelAgent.read_spec NovelAgent.read_spec.
Proof.
  unfold NovelAgent.read_spec, NovelAgent.read_chapter_count.
  eapply rel_bind; [apply rel_input|]. intros title ? <-.
  eapply rel_bind; [apply rel_input|]. intros theme ? <-.
  eapply rel_bind; [apply rel_input|]. intros plot ? <-.
  eapply rel_bind.
  - eapply rel_bind; [apply rel_input|]. intros line ? <-.
    apply rel_try_except; [apply rel_int|now apply rel_ret].
  - intros n ? <-. now apply rel_ret.
Qed.

Lemma rel_run : rel eq (NovelAgent.run remote1) (NovelAgent.run remote2).
Proof.
  unfold NovelAgent.run.
  eapply rel_bind; [apply rel_read_spec|]. intros spec ? <-.
  eapply rel_bind; [apply rel_print|]. intros _ _ _.
  eapply rel_bind; [apply rel_call_other; reflexivity|].
  intros outline ? <-.
  eapply rel_bind; [apply rel_print|]. intros _ _ _.
  eapply rel_bind; [apply rel_print|]. intros _ _ _.
  eapply rel_bind.
  - unfold NovelAgent.write_chapters.
    apply rel_for_each with (P := eq); [|reflexivity].
    intros x s1 ? <-. apply rel_chapter_cycle.
  - intros lists ? <-.
    eapply rel_bind; [apply rel_print|]. intros _ _ _.
    eapply rel_bind; [apply rel_print|]. intros _ _ _.
    eapply rel_bind; [apply rel_print|]. intros _ _ _.
    apply rel_print.
Qed.

End TwoRemotes.

(* ===================================================================== *)
(** * The remotes used as examples *)
(* ===================================================================== *)

Lemma const_never_raises text : never_raises (const_remote text).
Proof. intros k req. eexists. reflexivity. Qed.

Lemma echo_never_raises : never_raises echo_remote.
Proof. intros k req. eexists. reflexivity. Qed.

Lemma echo_answers_reviews : answers_reviews echo_remote.
Proof. intros k req _. eexists. reflexivity. Qed.

Lemma harsh_answers_reviews : answers_reviews harsh_remote.
Proof.
  intros k req Hkind. unfold harsh_remote. rewrite Hkind. eexists. reflexivity.
Qed.

Lemma echo_harsh_agree : agree_off_review echo_remote harsh_remote.
Proof. intros k req Hkind. unfold harsh_remote. now rewrite Hkind. Qed.

(* ===================================================================== *)
(** * Further lemmas *)
(* ===================================================================== *)

Lemma append_assoc (s1 s2 s3 : string) :
  (s1 +:+ s2) +:+ s3 = s1 +:+ (s2 +:+ s3).
Proof.
  induction s1 as [|a s1 IH]; [reflexivity|].
  change (String a ((s1 +:+ s2) +:+ s3) = String a (s1 +:+ (s2 +:+ s3))).
  now rewrite IH.
Qed.

Lemma count_up_seq n : forall j : nat,
  Py.count_up (Z.of_nat j) n = Z.of_nat <$> seq j n.
Proof.
  induction n as [|n IH]; intros j; [reflexivity|].
  cbn [Py.count_up seq fmap list_fmap]. f_equal.
  rewrite <- IH. f_equal. lia.
Qed.

(** [range(1, n + 1)] is 1, 2, ..., n. *)
Lemma range_seq (n : Z) :
  Py.range 1 (n + 1) = Z.of_nat <$> seq 1 (Z.to_nat n).
Proof.
  unfold Py.range. replace (n + 1 - 1) with n by lia.
  exact (count_up_seq (Z.to_nat n) 1).
Qed.

Lemma effective_of_int c n :
  Py.int (Py.strip (Py.decode c)) = Some n -> effective_chapter_count c = n.
Proof. intros H. unfold effective_chapter_count. now rewrite H. Qed.

Lemma effective_of_invalid c :
  Py.int (Py.strip (Py.decode c)) = None -> effective_chapter_count c = 5.
Proof. intros H. unfold effective_chapter_count. now rewrite H. Qed.

Lemma filter_outline_cycles title outline texts summaries indices :
  List.filter (is_kind KOutline)
    (flat_map (cycle_requests title outline texts summaries) indices) = [].
Proof.
  induction indices as [|i indices IH]; [reflexivity|].
  cbn [flat_map]. rewrite List.filter_app, IH.
  unfold cycle_requests. cbn [List.filter].
  rewrite is_kind_write, is_kind_review, is_kind_summarize. reflexivity.
Qed.

(** The facts about a run that the theorems below are read off from. *)
Lemma session_summary remote t th p c rest :
  never_raises remote ->
  let r := session remote (t :: th :: p :: c :: rest) in
  let l := session_log remote (t :: th :: p :: c :: rest) in
  let n := effective_chapter_count c in
  r.1 = Returned tt
  /\ length (returned KWrite l) = Z.to_nat n
  /\ length (returned KReview l) = Z.to_nat n
  /\ length (returned KSummarize l) = Z.to_nat n
  /\ requests l
     = GenerateOutline.request t th NovelAgent.default_main_characters p n
       :: flat_map
            (cycle_requests t (outline_text l)
               (returned KWrite l) (returned KSummarize l))
            (Py.range 1 (n + 1))
  /\ exists before,
       printed l
       = before ++ printed (closing_events (returned KWrite l)).
Proof.
  intros Hremote r l n. subst r l n. unfold session_log.
  destruct (session_effect remote t th p c rest Hremote)
    as (o & answers & Hlen & Hrun).
  rewrite Hrun. cbn [fst snd log].
  rewrite outline_text_run_events, !returned_run_events, !length_fmap.
  repeat split; try exact Hlen.
  - now apply requests_run_events.
  - apply printed_run_events.
Qed.

(* ===================================================================== *)
(** * The properties of the specification *)
(* ===================================================================== *)

(** C1: in a run that no call aborts, the prior-summaries field of the
    writing prompt of chapter 1 is the placeholder "(无)", and for every
    chapter [i] with [2 <= i <= N] it is the summaries that the
    summarization calls of chapters [1..i-1] returned, in that order, joined
    by line feeds.  [N] is the chapter count the run works with, and the run
    obtains exactly [N] summaries. *)
Theorem prior_summaries_in_writing_prompt remote t th p c rest :
  never_raises remote ->
  let l := session_log remote (t :: th :: p :: c :: rest) in
  let N := effective_chapter_count c in
  (1 <= N ->
   sent KWrite l !! 0%nat
   = Some (WriteChapter.request (outline_text l) "(无)"
             (NovelAgent.chapter_title t 1) 1 None))
  /\ (forall i, 2 <= i <= N ->
      sent KWrite l !! Z.to_nat (i - 1)
      = Some (WriteChapter.request (outline_text l)
                (Py.join nl (take (Z.to_nat (i - 1)) (returned KSummarize l)))
                (NovelAgent.chapter_title t i) i None))
  /\ length (returned KSummarize l) = Z.to_nat N.
Proof.
  intros Hremote l N. split; [|split].
  - intros HN.
    exact (write_request_of_chapter remote t th p c rest 1 Hremote
             (conj (Z.le_refl 1) HN)).
  - intros i Hi.
    pose proof (write_request_of_chapter remote t th p c rest i Hremote
                  ltac:(fold N; lia)) as H.
    cbv zeta in H. fold l in H. rewrite H.
    unfold NovelAgent.prev_summary.
    destruct (Z.eqb_spec i 1) as [->|_]; [lia|reflexivity].
  - apply (session_summary remote t th p c rest Hremote).
Qed.

(** The example of the specification: title "Stars", three chapters.  The
    call number [k] returns the text r[k], so the summaries of chapters 1
    and 2 are r3 and r6. *)
Lemma prior_summaries_in_writing_prompt_witness :
  never_raises echo_remote
  /\ sent KWrite (session_log echo_remote ["Stars"; "space"; "a trip"; "3"])
       !! 1%nat
     = Some (WriteChapter.request "r0" "r3" "Stars - 第2章" 2 None)
  /\ sent KWrite (session_log echo_remote ["Stars"; "space"; "a trip"; "3"])
       !! 2%nat
     = Some (WriteChapter.request "r0" ("r3" +:+ nl +:+ "r6")
               "Stars - 第3章" 3 None).
Proof.
  pose proof (prior_summaries_in_writing_prompt echo_remote
                "Stars" "space" "a trip" "3" [] echo_never_raises)
    as (_ & H & _).
  split; [exact echo_never_raises|]. split.
  - exact (H 2 ltac:(vm_compute; split; discriminate)).
  - exact (H 3 ltac:(vm_compute; split; discriminate)).
Defined.

(** C2: when the chapter-count line parses as an integer [N >= 0] and no
    call raises, the run returns, and after the outline request it makes
    exactly the requests of [N] cycles, for the chapters 1, 2, ..., [N] in
    this order: the write request of chapter [i], then the review request
    and the summarize request for the text that this write call returned,
    and only then the write request of chapter [i + 1].  Each of the [N]
    write, review and summarize calls returned. *)
Theorem cycles_run_in_index_order remote t th p c rest N :
  never_raises remote ->
  Py.int (Py.strip (Py.decode c)) = Some N ->
  0 <= N ->
  let r := session remote (t :: th :: p :: c :: rest) in
  let l := session_log remote (t :: th :: p :: c :: rest) in
  r.1 = Returned tt
  /\ requests l
     = GenerateOutline.request t th NovelAgent.default_main_characters p N
       :: flat_map
            (fun i : Z =>
               let chapter_text := nth (Z.to_nat (i - 1)) (returned KWrite l) "" in
               [ WriteChapter.request (outline_text l)
                   (NovelAgent.prev_summary i
                      (take (Z.to_nat (i - 1)) (returned KSummarize l)))
                   (NovelAgent.chapter_title t i) i None;
                 ReviewChapter.request chapter_text;
                 SummarizeChapter.request chapter_text ])
            (Z.of_nat <$> seq 1 (Z.to_nat N))
  /\ length (returned KWrite l) = Z.to_nat N
  /\ length (returned KReview l) = Z.to_nat N
  /\ length (returned KSummarize l) = Z.to_nat N.
Proof.
  intros Hremote Hint HN r l.
  destruct (session_summary remote t th p c rest Hremote)
    as (Hret & Hw & Hr & Hs & Hreq & _).
  rewrite (effective_of_int c N Hint) in Hw, Hr, Hs, Hreq.
  rewrite range_seq in Hreq.
  repeat split; assumption.
Qed.

(** Two chapters asked for, with blanks around the number. *)
Lemma cycles_run_in_index_order_witness :
  never_raises echo_remote
  /\ Py.int (Py.strip (Py.decode " 2 ")) = Some 2
  /\ 0 <= 2
  /\ (session echo_remote ["Stars"; "space"; "a trip"; " 2 "]).1 = Returned tt
  /\ requests (session_log echo_remote ["Stars"; "space"; "a trip"; " 2 "])
     = [ GenerateOutline.request "Stars" "space"
           NovelAgent.default_main_characters "a trip" 2;
         WriteChapter.request "r0" "(无)" "Stars - 第1章" 1 None;
         ReviewChapter.request "r1";
         SummarizeChapter.request "r1";
         WriteChapter.request "r0" "r3" "Stars - 第2章" 2 None;
         ReviewChapter.request "r4";
         SummarizeChapter.request "r4" ].
Proof.
  pose proof (cycles_run_in_index_order echo_remote
                "Stars" "space" "a trip" " 2 " [] 2
                echo_never_raises eq_refl ltac:(lia))
    as (Hret & Hreq & _).
  split; [exact echo_never_raises|].
  split; [reflexivity|]. split; [lia|]. split; [exact Hret|exact Hreq].
Defined.

(** C3: when the chapter-count line does not parse as an integer (the
    empty line included), the count that lines 181-185 yield is 5, and a run
    that no call aborts writes the chapters 1 to 5: the outline request
    states 5 chapters and five cycles follow. *)
Theorem invalid_count_defaults_to_five remote t th p c rest :
  never_raises remote ->
  Py.int (Py.strip (Py.decode c)) = None ->
  let l := session_log remote (t :: th :: p :: c :: rest) in
  (forall more l0,
     (NovelAgent.read_chapter_count {| stdin := c :: more; log := l0 |}).1
     = Returned 5)
  /\ requests l
     = GenerateOutline.request t th NovelAgent.default_main_characters p 5
       :: flat_map
            (cycle_requests t (outline_text l)
               (returned KWrite l) (returned KSummarize l))
            [1; 2; 3; 4; 5]
  /\ length (returned KWrite l) = 5%nat.
Proof.
  intros Hremote Hint l.
  destruct (session_summary remote t th p c rest Hremote)
    as (_ & Hw & _ & _ & Hreq & _).
  rewrite (effective_of_invalid c Hint) in Hw, Hreq.
  split; [|split].
  - intros more l0. rewrite read_chapter_count_effect.
    cbn [fst]. now rewrite (effective_of_invalid c Hint).
  - exact Hreq.
  - exact Hw.
Qed.

(** The example of the specification, the line "abc", and the empty line. *)
Lemma invalid_count_defaults_to_five_witness :
  never_raises echo_remote
  /\ Py.int (Py.strip (Py.decode "abc")) = None
  /\ Py.int (Py.strip (Py.decode "")) = None
  /\ length (returned KWrite
               (session_log echo_remote ["Stars"; "space"; "a trip"; "abc"]))
     = 5%nat
  /\ length (returned KWrite
               (session_log echo_remote ["Stars"; "space"; "a trip"; ""]))
     = 5%nat.
Proof.
  pose proof (invalid_count_defaults_to_five echo_remote
                "Stars" "space" "a trip" "abc" [] echo_never_raises eq_refl)
    as (_ & _ & Habc).
  pose proof (invalid_count_defaults_to_five echo_remote
                "Stars" "space" "a trip" "" [] echo_never_raises eq_refl)
    as (_ & _ & Hempty).
  split; [exact echo_never_raises|].
  split; [reflexivity|]. split; [reflexivity|].
  split; [exact Habc|exact Hempty].
Defined.

(** C4: in a run that no call aborts, the last four things printed are the
    two closing banners, between them the assembled novel, and the farewell;
    the novel is the texts that the write calls returned, in the order they
    were written, joined by line feeds.  A list keeps repeated texts: none is
    dropped. *)
Theorem full_novel_joins_chapters remote t th p c rest :
  never_raises remote ->
  let l := session_log remote (t :: th :: p :: c :: rest) in
  exists before,
    printed l
    = before
      ++ [ nl +:+ nl +:+ "=== 全部章节完成 ===" +:+ nl;
           "=== 以下是完整小说内容 ===" +:+ nl;
           Py.join nl (returned KWrite l);
           nl +:+ "=== 写作结束，感谢使用！ ===" ].
Proof.
  intros Hremote l.
  destruct (session_summary remote t th p c rest Hremote)
    as (_ & _ & _ & _ & _ & before & Hprinted).
  exists before. exact Hprinted.
Qed.

(** Three chapters with the same text: the novel holds it three times. *)
Lemma full_novel_joins_chapters_witness :
  never_raises (const_remote "x")
  /\ returned KWrite
       (session_log (const_remote "x") ["Stars"; "space"; "a trip"; "3"])
     = ["x"; "x"; "x"]
  /\ exists before,
       printed (session_log (const_remote "x")
                  ["Stars"; "space"; "a trip"; "3"])
       = before
         ++ [ nl +:+ nl +:+ "=== 全部章节完成 ===" +:+ nl;
              "=== 以下是完整小说内容 ===" +:+ nl;
              "x" +:+ nl +:+ "x" +:+ nl +:+ "x";
              nl +:+ "=== 写作结束，感谢使用！ ===" ].
Proof.
  split; [exact (const_never_raises "x")|]. split; [reflexivity|].
  exact (full_novel_joins_chapters (const_remote "x")
           "Stars" "space" "a trip" "3" [] (const_never_raises "x")).
Defined.

(** C5: take two remotes that answer every request alike except the review
    requests, which both answer but possibly with different texts.  On the
    same input, the two runs make the same requests in the same order, with
    identical prompts (writing, review and summarization alike), and they
    end alike.  Nothing of a review reaches a later prompt. *)
Theorem reviews_never_reach_prompts remote1 remote2 lines :
  agree_off_review remote1 remote2 ->
  answers_reviews remote1 ->
  answers_reviews remote2 ->
  requests (session_log remote1 lines) = requests (session_log remote2 lines)
  /\ (session remote1 lines).1 = (session remote2 lines).1.
Proof.
  intros Hagree H1 H2. unfold session_log, session.
  pose proof (rel_run remote1 remote2 Hagree H1 H2
                (start lines) (start lines) (conj eq_refl eq_refl)) as H.
  destruct (NovelAgent.run remote1 (start lines)) as [[a1|e1] st1],
           (NovelAgent.run remote2 (start lines)) as [[a2|e2] st2];
    try contradiction; cbn [fst snd].
  - destruct H as [-> [_ Hreq]]. split; [exact Hreq|reflexivity].
  - destruct H as [-> [_ Hreq]]. split; [exact Hreq|reflexivity].
Qed.

(** One remote reviews each chapter with the number of the call, the other
    with the words "rewrite it": the reviews differ, the requests do not. *)
Lemma reviews_never_reach_prompts_witness :
  agree_off_review echo_remote harsh_remote
  /\ answers_reviews echo_remote
  /\ answers_reviews harsh_remote
  /\ returned KReview
       (session_log echo_remote ["Stars"; "space"; "a trip"; "2"])
     = ["r2"; "r5"]
  /\ returned KReview
       (session_log harsh_remote ["Stars"; "space"; "a trip"; "2"])
     = ["rewrite it"; "rewrite it"]
  /\ requests (session_log echo_remote ["Stars"; "space"; "a trip"; "2"])
     = requests (session_log harsh_remote ["Stars"; "space"; "a trip"; "2"]).
Proof.
  split; [exact echo_harsh_agree|].
  split; [exact echo_answers_reviews|].
  split; [exact harsh_answers_reviews|].
  split; [reflexivity|]. split; [reflexivity|].
  exact (proj1 (reviews_never_reach_prompts echo_remote harsh_remote
                  ["Stars"; "space"; "a trip"; "2"]
                  echo_harsh_agree echo_answers_reviews
                  harsh_answers_reviews)).
Defined.

(** C6, as the specification states it, fails: the line "-3" parses, and
    the count the agent works with is -3.  The outline request states -3
    chapters and no cycle follows. *)
Lemma negative_count_is_kept :
  (exists n,
     (NovelAgent.read_chapter_count (start ["-3"])).1 = Returned n /\ n < 0)
  /\ requests (session_log echo_remote ["Stars"; "space"; "a trip"; "-3"])
     = [ GenerateOutline.request "Stars" "space"
           NovelAgent.default_main_characters "a trip" (-3) ].
Proof.
  split; [|reflexivity].
  exists (-3). split; [reflexivity|lia].
Qed.

(** C6, amended: when the chapter-count line does not parse as a negative
    integer, the count that lines 181-185 yield is at least 0 (5 for a line
    that does not parse), and it is the count the run works with: the
    outline request states it and the loop ranges over [range(1, n + 1)]. *)
Theorem count_nonnegative_unless_negative_typed c :
  (forall n, Py.int (Py.strip (Py.decode c)) = Some n -> 0 <= n) ->
  exists n,
    0 <= n
    /\ (forall more l0,
          (NovelAgent.read_chapter_count {| stdin := c :: more; log := l0 |}).1
          = Returned n)
    /\ (forall remote t th p rest,
          never_raises remote ->
          let l := session_log remote (t :: th :: p :: c :: rest) in
          requests l
          = GenerateOutline.request t th NovelAgent.default_main_characters
              p n
            :: flat_map
                 (cycle_requests t (outline_text l)
                    (returned KWrite l) (returned KSummarize l))
                 (Py.range 1 (n + 1))).
Proof.
  intros Hnonneg. exists (effective_chapter_count c). split; [|split].
  - unfold effective_chapter_count.
    destruct (Py.int (Py.strip (Py.decode c))) as [n|] eqn:Hint;
      [now apply Hnonneg|lia].
  - intros more l0. now rewrite read_chapter_count_effect.
  - intros remote t th p rest Hremote.
    apply (session_summary remote t th p c rest Hremote).
Qed.

(** The line "0", and the line "seven", which does not parse. *)
Lemma count_nonnegative_unless_negative_typed_witness :
  (forall n, Py.int (Py.strip (Py.decode "0")) = Some n -> 0 <= n)
  /\ (forall n, Py.int (Py.strip (Py.decode "seven")) = Some n -> 0 <= n)
  /\ (exists n,
        0 <= n
        /\ (NovelAgent.read_chapter_count (start ["0"])).1 = Returned n)
  /\ (exists n,
        0 <= n
        /\ (NovelAgent.read_chapter_count (start ["seven"])).1 = Returned n).
Proof.
  assert (H0 : forall n, Py.int (Py.strip (Py.decode "0")) = Some n -> 0 <= n).
  { intros n Hn. vm_compute in Hn. injection Hn as <-. lia. }
  assert (H7 : forall n,
             Py.int (Py.strip (Py.decode "seven")) = Some n -> 0 <= n).
  { intros n Hn. vm_compute in Hn. discriminate Hn. }
  split; [exact H0|]. split; [exact H7|]. split.
  - destruct (count_nonnegative_unless_negative_typed "0" H0)
      as (n & Hn & Hread & _).
    exists n. split; [exact Hn|exact (Hread [] [])].
  - destruct (count_nonnegative_unless_negative_typed "seven" H7)
      as (n & Hn & Hread & _).
    exists n. split; [exact Hn|exact (Hread [] [])].
Defined.

(** C7, as the specification states it, fails: the mapping of characters is
    not made from what the user types.  Two users who type different titles,
    themes, plots and counts get the same mapping, the literal of lines
    187-190. *)
Lemma main_characters_ignore_the_user :
  (NovelAgent.read_spec
     (start ["Stars"; "space"; "Alice the pilot meets Bob"; "3"])).1
  = Returned {| NovelAgent.title := "Stars";
                NovelAgent.theme := "space";
                NovelAgent.plot_summary := "Alice the pilot meets Bob";
                NovelAgent.chapter_count := 3;
                NovelAgent.main_characters :=
                  [ ("主角", "默认写一个大概的主角信息");
                    ("配角A", "可自行扩展") ] |}
  /\ (NovelAgent.read_spec
        (start ["Dune"; "desert"; "Paul leads a war"; "7"])).1
     = Returned {| NovelAgent.title := "Dune";
                   NovelAgent.theme := "desert";
                   NovelAgent.plot_summary := "Paul leads a war";
                   NovelAgent.chapter_count := 7;
                   NovelAgent.main_characters :=
                     [ ("主角", "默认写一个大概的主角信息");
                       ("配角A", "可自行扩展") ] |}.
Proof. split; reflexivity. Qed.

(** C7, amended: the mapping of characters is the same two-entry literal
    for every input.  It is created once, when the answers of the user have
    been read, and it is not modified afterwards: the one request of the run
    that shows it, the outline request, shows this literal. *)
Theorem main_characters_fixed_literal remote t th p c rest :
  never_raises remote ->
  (exists spec st,
     NovelAgent.read_spec (start (t :: th :: p :: c :: rest))
     = (Returned spec, st)
     /\ NovelAgent.main_characters spec
        = [ ("主角", "默认写一个大概的主角信息"); ("配角A", "可自行扩展") ])
  /\ sent KOutline (session_log remote (t :: th :: p :: c :: rest))
     = [ GenerateOutline.request t th
           [ ("主角", "默认写一个大概的主角信息"); ("配角A", "可自行扩展") ]
           p (effective_chapter_count c) ].
Proof.
  intros Hremote. split.
  - eexists _, _. rewrite read_spec_effect. split; reflexivity.
  - destruct (session_summary remote t th p c rest Hremote)
      as (_ & _ & _ & _ & Hreq & _).
    unfold sent. rewrite Hreq. cbn [List.filter].
    rewrite is_kind_outline, filter_outline_cycles. reflexivity.
Qed.

Lemma main_characters_fixed_literal_witness :
  never_raises echo_remote
  /\ sent KOutline
       (session_log echo_remote
          ["Stars"; "space"; "Alice the pilot meets Bob"; "3"])
     = [ GenerateOutline.request "Stars" "space"
           [ ("主角", "默认写一个大概的主角信息"); ("配角A", "可自行扩展") ]
           "Alice the pilot meets Bob" 3 ].
Proof.
  split; [exact echo_never_raises|].
  exact (proj2 (main_characters_fixed_literal echo_remote
                  "Stars" "space" "Alice the pilot meets Bob" "3" []
                  echo_never_raises)).
Defined.

(** C8: for every list of messages, model and temperature, when the remote
    call yields a response, [call_deepseek_chat] returns the content
    attribute of the response if it has one and the empty string if it has
    none; the call makes this one request and nothing else. *)
Theorem chat_call_returns_content remote messages model temperature st response :
  remote (length (requests (log st)))
         (chat_request messages model temperature) = Some response ->
  let r := call_deepseek_chat remote messages model temperature st in
  (forall content, response !! "content" = Some content ->
                   r.1 = Returned content)
  /\ (response !! "content" = None -> r.1 = Returned "")
  /\ log r.2
     = log st ++ [ECall (chat_request messages model temperature)
                        (Some response)].
Proof.
  intros Hresponse r. subst r.
  unfold call_deepseek_chat, bind, invoke, ret. rewrite Hresponse.
  cbn [fst snd emit log]. unfold getattr.
  split; [|split].
  - intros content Hcontent. now rewrite Hcontent.
  - intros Hnone. now rewrite Hnone.
  - reflexivity.
Qed.

(** A response with a content, and a response without. *)
Lemma chat_call_returns_content_witness :
  const_remote "hello" 0%nat
    (chat_request (ReviewChapter.messages "text") None None)
  = Some {[ "content" := "hello" ]}
  /\ (call_deepseek_chat (const_remote "hello")
        (ReviewChapter.messages "text") None None (start [])).1
     = Returned "hello"
  /\ mute_remote 0%nat
       (chat_request (ReviewChapter.messages "text") None None)
     = Some ∅
  /\ (call_deepseek_chat mute_remote
        (ReviewChapter.messages "text") None None (start [])).1
     = Returned "".
Proof.
  split; [reflexivity|]. split.
  - exact (proj1 (chat_call_returns_content (const_remote "hello")
                    (ReviewChapter.messages "text") None None (start [])
                    {[ "content" := "hello" ]} eq_refl)
             "hello" eq_refl).
  - split; [reflexivity|].
    exact (proj1 (proj2 (chat_call_returns_content mute_remote
                           (ReviewChapter.messages "text") None None
                           (start []) ∅ eq_refl))
             eq_refl).
Defined.

(** C9: in a run that no call aborts, the chapter title in the writing
    prompt of chapter [i] is the title the user typed, followed by " - 第",
    the decimal index and "章".  The outline the remote returned, whatever
    it is, fills the outline field of the prompt and nothing of the title. *)
Theorem chapter_title_is_synthesized remote t th p c rest i :
  never_raises remote ->
  1 <= i <= effective_chapter_count c ->
  let l := session_log remote (t :: th :: p :: c :: rest) in
  exists prev_summaries,
    sent KWrite l !! Z.to_nat (i - 1)
    = Some (WriteChapter.request (outline_text l) prev_summaries
              (t +:+ " - 第" +:+ Py.str i +:+ "章") i None).
Proof.
  intros Hremote Hi l.
  eexists. exact (write_request_of_chapter remote t th p c rest i Hremote Hi).
Qed.

(** The same title and count under two remotes that return different
    outlines: the chapter title of chapter 2 is the same. *)
Lemma chapter_title_is_synthesized_witness :
  never_raises echo_remote
  /\ never_raises (const_remote "1. Dawn 2. Dusk")
  /\ 1 <= 2 <= effective_chapter_count "2"
  /\ (exists prev_summaries,
        sent KWrite (session_log echo_remote ["Stars"; "space"; "a trip"; "2"])
          !! 1%nat
        = Some (WriteChapter.request "r0" prev_summaries
                  "Stars - 第2章" 2 None))
  /\ (exists prev_summaries,
        sent KWrite (session_log (const_remote "1. Dawn 2. Dusk")
                       ["Stars"; "space"; "a trip"; "2"])
          !! 1%nat
        = Some (WriteChapter.request "1. Dawn 2. Dusk" prev_summaries
                  "Stars - 第2章" 2 None)).
Proof.
  assert (H : 1 <= 2 <= effective_chapter_count "2")
    by (vm_compute; split; discriminate).
  split; [exact echo_never_raises|].
  split; [exact (const_never_raises _)|].
  split; [exact H|]. split.
  - destruct (chapter_title_is_synthesized echo_remote
                "Stars" "space" "a trip" "2" [] 2 echo_never_raises H)
      as [prev Hprev].
    exists prev. vm_compute in Hprev. vm_compute. exact Hprev.
  - destruct (chapter_title_is_synthesized (const_remote "1. Dawn 2. Dusk")
                "Stars" "space" "a trip" "2" [] 2 (const_never_raises _) H)
      as [prev Hprev].
    exists prev. vm_compute in Hprev. vm_compute. exact Hprev.
Defined.

(** The end of every writing prompt built without a target word count. *)
Lemma write_user_prompt_ends_with_default outline prev ctitle i :
  exists before,
    WriteChapter.user_prompt outline prev ctitle i None
    = before +:+ "》，目标字数约 2000。".
Proof.
  exists ("【小说大纲】" +:+ nl +:+ outline +:+ nl +:+ nl
          +:+ "【前文摘要】" +:+ nl +:+ prev +:+ nl +:+ nl
          +:+ "请写第" +:+ Py.str i +:+ "章：《" +:+ ctitle).
  rewrite !append_assoc. reflexivity.
Qed.

(** C10: in a run that no call aborts, as many writing requests are made
    as there are chapters, and the prompt of each of them ends with the
    target word count 2000, the default of [WriteChapter.run]: the agent
    passes no target word count ([None]). *)
Theorem target_word_count_is_default remote t th p c rest :
  never_raises remote ->
  let l := session_log remote (t :: th :: p :: c :: rest) in
  length (sent KWrite l) = Z.to_nat (effective_chapter_count c)
  /\ forall req, req ∈ sent KWrite l ->
       exists before,
         user_content req = Some (before +:+ "》，目标字数约 2000。").
Proof.
  intros Hremote l. subst l. unfold session_log.
  destruct (session_effect remote t th p c rest Hremote)
    as (o & answers & Hlen & Hrun).
  rewrite Hrun. cbn [snd log].
  rewrite sent_write_run_events by exact Hlen. split.
  - rewrite length_fmap. unfold Py.range. rewrite count_up_length.
    f_equal. lia.
  - intros req Hreq. apply list_elem_of_fmap in Hreq as (i & -> & _).
    destruct (write_user_prompt_ends_with_default (text_of o)
                (NovelAgent.prev_summary i
                   (take (Z.to_nat (i - 1)) (summary_text_of <$> answers)))
                (NovelAgent.chapter_title t i) i) as [before Hbefore].
    exists before. rewrite <- Hbefore. reflexivity.
Qed.

(** The first writing prompt of a run, in full. *)
Lemma target_word_count_is_default_witness :
  never_raises echo_remote
  /\ sent KWrite (session_log echo_remote ["Stars"; "space"; "a trip"; "1"])
     = [ WriteChapter.request "r0" "(无)" "Stars - 第1章" 1 None ]
  /\ exists before,
       user_content (WriteChapter.request "r0" "(无)" "Stars - 第1章" 1 None)
       = Some (before +:+ "》，目标字数约 2000。").
Proof.
  split; [exact echo_never_raises|]. split; [reflexivity|].
  apply (proj2 (target_word_count_is_default echo_remote
                  "Stars" "space" "a trip" "1" [] echo_never_raises)).
  change (WriteChapter.request "r0" "(无)" "Stars - 第1章" 1 None
          ∈ [WriteChapter.request "r0" "(无)" "Stars - 第1章" 1 None]).
  apply list_elem_of_here.
Defined.

(* ===================================================================== *)
(** * Further properties of the script *)
(* ===================================================================== *)

(** ** Runs that no call aborts *)

Lemma length_flat_map_cycles title outline texts summaries indices :
  length (flat_map (cycle_requests title outline texts summaries) indices)
  = (3 * length indices)%nat.
Proof.
  induction indices as [|i indices IH]; [reflexivity|].
  cbn [flat_map]. rewrite length_app, IH. cbn [cycle_requests length]. lia.
Qed.

(** X1: a run that no call aborts makes one request for the outline and
    three for each chapter, [1 + 3 * max(0, N)] in all. *)
Theorem completed_run_call_count remote t th p c rest :
  never_raises remote ->
  length (requests (session_log remote (t :: th :: p :: c :: rest)))
  = (1 + 3 * Z.to_nat (effective_chapter_count c))%nat.
Proof.
  intros Hremote.
  destruct (session_summary remote t th p c rest Hremote)
    as (_ & _ & _ & _ & Hreq & _).
  rewrite Hreq. cbn [length]. rewrite length_flat_map_cycles.
  unfold Py.range. rewrite count_up_length. lia.
Qed.

Lemma completed_run_call_count_witness :
  never_raises echo_remote
  /\ length (requests (session_log echo_remote
                         ["Stars"; "space"; "a trip"; "4"]))
     = 13%nat.
Proof.
  split; [exact echo_never_raises|].
  exact (completed_run_call_count echo_remote
           "Stars" "space" "a trip" "4" [] echo_never_raises).
Defined.

(** X2: when the count is zero or negative, a run that no call aborts
    asks for the outline and for nothing else, writes no chapter, and the
    novel it prints is the empty text. *)
Theorem nonpositive_count_writes_nothing remote t th p c rest :
  never_raises remote ->
  effective_chapter_count c <= 0 ->
  let l := session_log remote (t :: th :: p :: c :: rest) in
  requests l
  = [ GenerateOutline.request t th NovelAgent.default_main_characters p
        (effective_chapter_count c) ]
  /\ returned KWrite l = []
  /\ exists before,
       printed l
       = before
         ++ [ nl +:+ nl +:+ "=== 全部章节完成 ===" +:+ nl;
              "=== 以下是完整小说内容 ===" +:+ nl;
              "";
              nl +:+ "=== 写作结束，感谢使用！ ===" ].
Proof.
  intros Hremote Hn l.
  destruct (session_summary remote t th p c rest Hremote)
    as (_ & Hw & _ & _ & Hreq & before & Hprinted).
  fold l in Hw, Hreq, Hprinted.
  assert (Hnil : returned KWrite l = []).
  { apply length_zero_iff_nil. rewrite Hw. lia. }
  split; [|split].
  - rewrite Hreq. unfold Py.range.
    replace (Z.to_nat (effective_chapter_count c + 1 - 1)) with O by lia.
    reflexivity.
  - exact Hnil.
  - exists before. rewrite Hprinted, Hnil. reflexivity.
Qed.

Lemma nonpositive_count_writes_nothing_witness :
  never_raises echo_remote
  /\ effective_chapter_count "0" <= 0
  /\ requests (session_log echo_remote ["Stars"; "space"; "a trip"; "0"])
     = [ GenerateOutline.request "Stars" "space"
           NovelAgent.default_main_characters "a trip" 0 ].
Proof.
  assert (H : effective_chapter_count "0" <= 0) by (vm_compute; discriminate).
  split; [exact echo_never_raises|]. split; [exact H|].
  exact (proj1 (nonpositive_count_writes_nothing echo_remote
                  "Stars" "space" "a trip" "0" [] echo_never_raises H)).
Defined.

(** What the loop prints for the answers it gets. *)
Lemma printed_loop_events_shows title outline answers :
  forall i summaries0 a,
    a ∈ answers ->
    ("=== 审阅意见 ===" +:+ nl +:+ review_text_of a +:+ nl)
      ∈ printed (loop_events title outline i summaries0 answers)
    /\ ("=== 本章摘要 ===" +:+ nl +:+ summary_text_of a +:+ nl)
         ∈ printed (loop_events title outline i summaries0 answers)
    /\ exists j,
         i <= j < i + Z.of_nat (length answers)
         /\ (nl +:+ "=== 第" +:+ Py.str j +:+ "章初稿 ===" +:+ nl
             +:+ chapter_text_of a)
              ∈ printed (loop_events title outline i summaries0 answers).
Proof.
  induction answers as [|a0 answers IH]; intros i summaries0 a Ha.
  - inversion Ha.
  - cbn [loop_events]. rewrite printed_app.
    apply elem_of_cons in Ha as [->|Ha].
    + split; [|split].
      * apply elem_of_app. left.
        cbn. repeat first [apply list_elem_of_here | apply list_elem_of_further].
      * apply elem_of_app. left.
        cbn. repeat first [apply list_elem_of_here | apply list_elem_of_further].
      * exists i. split; [cbn [length]; lia|].
        apply elem_of_app. left.
        cbn. repeat first [apply list_elem_of_here | apply list_elem_of_further].
    + destruct (IH (i + 1) (summaries0 ++ [summary_text_of a0]) a Ha)
        as (Hr & Hs & j & Hj & Hd).
      split; [|split].
      * apply elem_of_app. now right.
      * apply elem_of_app. now right.
      * exists j. split; [cbn [length]; lia|].
        apply elem_of_app. now right.
Qed.

(** X3: in a run that no call aborts, every text a call returns is shown
    to the user: the outline as it is, each review and each summary under
    its banner, each draft under the banner of one of the chapters 1..N. *)
Theorem returned_texts_are_displayed remote t th p c rest :
  never_raises remote ->
  let l := session_log remote (t :: th :: p :: c :: rest) in
  outline_text l ∈ printed l
  /\ (forall review, review ∈ returned KReview l ->
        ("=== 审阅意见 ===" +:+ nl +:+ review +:+ nl) ∈ printed l)
  /\ (forall summary, summary ∈ returned KSummarize l ->
        ("=== 本章摘要 ===" +:+ nl +:+ summary +:+ nl) ∈ printed l)
  /\ (forall text, text ∈ returned KWrite l ->
        exists i,
          1 <= i <= effective_chapter_count c
          /\ (nl +:+ "=== 第" +:+ Py.str i +:+ "章初稿 ===" +:+ nl +:+ text)
               ∈ printed l).
Proof.
  intros Hremote l. subst l. unfold session_log.
  destruct (session_effect remote t th p c rest Hremote)
    as (o & answers & Hlen & Hrun).
  rewrite Hrun. cbn [snd log].
  rewrite outline_text_run_events, !returned_run_events.
  unfold run_events. rewrite !printed_app.
  split; [|split; [|split]].
  - apply elem_of_app. right. apply elem_of_app. left.
    cbn. repeat first [apply list_elem_of_here | apply list_elem_of_further].
  - intros review Hin. apply list_elem_of_fmap in Hin as (a & -> & Ha).
    apply elem_of_app. right. apply elem_of_app. right.
    apply elem_of_app. left.
    apply (printed_loop_events_shows t (text_of o) answers 1 [] a Ha).
  - intros summary Hin. apply list_elem_of_fmap in Hin as (a & -> & Ha).
    apply elem_of_app. right. apply elem_of_app. right.
    apply elem_of_app. left.
    apply (printed_loop_events_shows t (text_of o) answers 1 [] a Ha).
  - intros text Hin. apply list_elem_of_fmap in Hin as (a & -> & Ha).
    destruct (printed_loop_events_shows t (text_of o) answers 1 [] a Ha)
      as (_ & _ & j & Hj & Hd).
    exists j. split; [lia|].
    apply elem_of_app. right. apply elem_of_app. right.
    apply elem_of_app. now left.
Qed.

Lemma returned_texts_are_displayed_witness :
  never_raises echo_remote
  /\ "r2" ∈ returned KReview
              (session_log echo_remote ["Stars"; "space"; "a trip"; "1"])
  /\ ("=== 审阅意见 ===" +:+ nl +:+ "r2" +:+ nl)
       ∈ printed (session_log echo_remote ["Stars"; "space"; "a trip"; "1"]).
Proof.
  assert (H : "r2" ∈ returned KReview
                (session_log echo_remote ["Stars"; "space"; "a trip"; "1"])).
  { change ("r2" ∈ ["r2"]). apply list_elem_of_here. }
  split; [exact echo_never_raises|]. split; [exact H|].
  exact (proj1 (proj2 (returned_texts_are_displayed echo_remote
                         "Stars" "space" "a trip" "1" []
                         echo_never_raises))
           "r2" H).
Defined.

(** The writing requests of a run, from the outline and the summaries it
    obtained. *)
Lemma sent_write_of_session remote t th p c rest :
  never_raises remote ->
  let l := session_log remote (t :: th :: p :: c :: rest) in
  sent KWrite l
  = (fun i => WriteChapter.request (outline_text l)
                (NovelAgent.prev_summary i
                   (take (Z.to_nat (i - 1)) (returned KSummarize l)))
                (NovelAgent.chapter_title t i) i None)
    <$> Py.range 1 (effective_chapter_count c + 1).
Proof.
  intros Hremote l. subst l. unfold session_log.
  destruct (session_effect remote t th p c rest Hremote)
    as (o & answers & Hlen & Hrun).
  rewrite Hrun. cbn [snd log].
  rewrite sent_write_run_events by exact Hlen.
  now rewrite outline_text_run_events, returned_run_events.
Qed.

(** X4: of what the calls return, only the outline and the summaries reach
    the writing prompts.  Two runs on the same input that obtain the same
    outline and the same summaries send the same writing requests, whatever
    drafts and reviews they obtain. *)
Theorem writing_prompts_depend_on_summaries_only
    remote1 remote2 t th p c rest :
  never_raises remote1 ->
  never_raises remote2 ->
  let l1 := session_log remote1 (t :: th :: p :: c :: rest) in
  let l2 := session_log remote2 (t :: th :: p :: c :: rest) in
  outline_text l1 = outline_text l2 ->
  returned KSummarize l1 = returned KSummarize l2 ->
  sent KWrite l1 = sent KWrite l2.
Proof.
  intros H1 H2 l1 l2 Houtline Hsummaries. subst l1 l2.
  rewrite (sent_write_of_session remote1 t th p c rest H1).
  rewrite (sent_write_of_session remote2 t th p c rest H2).
  cbv zeta. now rewrite Houtline, Hsummaries.
Qed.

Lemma terse_never_raises : never_raises terse_remote.
Proof.
  intros k req. unfold terse_remote.
  destruct (is_kind KWrite req); eexists; reflexivity.
Qed.

(** Two runs whose drafts differ and whose summaries agree. *)
Lemma writing_prompts_depend_on_summaries_only_witness :
  never_raises echo_remote
  /\ never_raises terse_remote
  /\ returned KWrite
       (session_log echo_remote ["Stars"; "space"; "a trip"; "2"])
     = ["r1"; "r4"]
  /\ returned KWrite
       (session_log terse_remote ["Stars"; "space"; "a trip"; "2"])
     = ["draft"; "draft"]
  /\ sent KWrite (session_log echo_remote ["Stars"; "space"; "a trip"; "2"])
     = sent KWrite (session_log terse_remote ["Stars"; "space"; "a trip"; "2"]).
Proof.
  split; [exact echo_never_raises|]. split; [exact terse_never_raises|].
  split; [reflexivity|]. split; [reflexivity|].
  exact (writing_prompts_depend_on_summaries_only echo_remote terse_remote
           "Stars" "space" "a trip" "2" []
           echo_never_raises terse_never_raises eq_refl eq_refl).
Defined.

(** ** Runs that an exception may abort *)

Lemma run_unfold remote :
  NovelAgent.run remote
  = bind NovelAgent.read_spec (run_after_spec remote).
Proof. reflexivity. Qed.


Lemma wb_ret {A} (a : A) : well_behaved (ret a).
Proof. intros st Hst. split; [reflexivity|exact Hst]. Qed.

Lemma wb_bind {A B} (m : M A) (k : A -> M B) :
  well_behaved m -> (forall a, well_behaved (k a)) ->
  well_behaved (bind m k).
Proof.
  intros Hm Hk st Hst. unfold bind.
  specialize (Hm st Hst). unfold ends_regularly in *.
  destruct (m st) as [[a|e] st1]; cbn [fst snd] in *.
  - destruct Hm as [Hin Hreg].
    destruct (Hk a st1 Hreg) as [Hin' Hpost].
    split; [congruence|exact Hpost].
  - exact Hm.
Qed.

Lemma wb_print text : well_behaved (print text).
Proof.
  intros st Hst. split; [reflexivity|].
  cbn. apply Forall_app. split; [exact Hst|].
  repeat constructor.
Qed.

Lemma wb_call remote messages :
  action_request (chat_request messages None None) ->
  well_behaved (call_deepseek_chat remote messages None None).
Proof.
  intros Hreq st Hst.
  unfold call_deepseek_chat, bind, invoke, ret, ends_regularly.
  destruct (remote (length (requests (log st)))
                   (chat_request messages None None)) as [response|];
    cbn [fst snd emit stdin log].
  - split; [reflexivity|]. apply Forall_app. split; [exact Hst|].
    constructor; [exact Hreq|constructor].
  - split; [reflexivity|]. eexists _, _. split; [reflexivity|]. now split.
Qed.

Lemma wb_for_each {S} (body : Z -> S -> M S) :
  (forall x s, well_behaved (body x s)) ->
  forall xs s, well_behaved (for_each xs body s).
Proof.
  intros Hbody. induction xs as [|x xs IH]; intros s.
  - apply wb_ret.
  - cbn [for_each]. apply wb_bind; [apply Hbody|exact IH].
Qed.

Lemma wb_chapter_cycle remote title outline i lists :
  well_behaved (NovelAgent.chapter_cycle remote title outline i lists).
Proof.
  unfold NovelAgent.chapter_cycle.
  apply wb_bind; [apply wb_print|]. intros _.
  apply wb_bind.
  { apply wb_call. right. left. eexists _, _, _, _. reflexivity. }
  intros chapter_text.
  apply wb_bind; [apply wb_print|]. intros _.
  apply wb_bind; [apply wb_print|]. intros _.
  apply wb_bind.
  { apply wb_call. right. right. left. eexists. reflexivity. }
  intros review_text.
  apply wb_bind; [apply wb_print|]. intros _.
  apply wb_bind.
  { apply wb_call. right. right. right. eexists. reflexivity. }
  intros summary_text.
  apply wb_bind; [apply wb_print|]. intros _.
  apply wb_ret.
Qed.

Lemma wb_run_after_spec remote spec :
  well_behaved (run_after_spec remote spec).
Proof.
  unfold run_after_spec.
  apply wb_bind; [apply wb_print|]. intros _.
  apply wb_bind.
  { apply wb_call. left. eexists _, _, _, _, _. reflexivity. }
  intros outline.
  apply wb_bind; [apply wb_print|]. intros _.
  apply wb_bind; [apply wb_print|]. intros _.
  apply wb_bind.
  { unfold NovelAgent.write_chapters. apply wb_for_each.
    intros x s. apply wb_chapter_cycle. }
  intros lists.
  apply wb_bind; [apply wb_print|]. intros _.
  apply wb_bind; [apply wb_print|]. intros _.
  apply wb_bind; [apply wb_print|]. intros _.
  apply wb_print.
Qed.

(** With fewer than four lines, the run ends at the prompt that finds no
    line; no request has been made. *)
Lemma short_session remote lines :
  (length lines < 4)%nat ->
  exists before prompt,
    session remote lines
    = (Raised EOFError,
       {| stdin := []; log := before ++ [EInput prompt None] |})
    /\ Forall regular before /\ requests before = [].
Proof.
  intros Hlen.
  destruct lines as [|t [|th [|p [|c rest]]]]; [| | | |cbn in Hlen; lia].
  - exists [], ("请输入小说标题：" +:+ nl +:+ "> ").
    split; [reflexivity|]. split; [constructor|reflexivity].
  - exists [EInput ("请输入小说标题：" +:+ nl +:+ "> ") (Some t)],
           ("请输入小说主题或背景：" +:+ nl +:+ "> ").
    split; [reflexivity|]. split; [repeat constructor|reflexivity].
  - exists [EInput ("请输入小说标题：" +:+ nl +:+ "> ") (Some t);
            EInput ("请输入小说主题或背景：" +:+ nl +:+ "> ") (Some th)],
           ("请输入故事的概述：" +:+ nl +:+ "> ").
    split; [reflexivity|]. split; [repeat constructor|reflexivity].
  - exists [EInput ("请输入小说标题：" +:+ nl +:+ "> ") (Some t);
            EInput ("请输入小说主题或背景：" +:+ nl +:+ "> ") (Some th);
            EInput ("请输入故事的概述：" +:+ nl +:+ "> ") (Some p)],
           ("你想要多少章？(默认5)：" +:+ nl +:+ "> ").
    split; [reflexivity|]. split; [repeat constructor|reflexivity].
Qed.

(** With four lines or more, the run goes on from the log of the four
    inputs and ends regularly. *)
Lemma long_session remote t th p c rest :
  ends_regularly {| stdin := rest; log := input_events t th p c |}
    (session remote (t :: th :: p :: c :: rest)).
Proof.
  unfold session. rewrite run_unfold.
  rewrite (bind_returned _ _ _ _ _ (read_spec_effect _ _ _ _ _)).
  apply wb_run_after_spec. cbn [log]. repeat constructor.
Qed.

Lemma regular_requests l :
  Forall regular l -> Forall action_request (requests l).
Proof.
  induction 1 as [|e l He _ IH]; [constructor|].
  destruct e as [prompt line | text | req [response|]]; cbn in *;
    try exact IH; [constructor; assumption | contradiction].
Qed.

Lemma action_request_shape req :
  action_request req ->
  client req = default_client
  /\ is_Some (kind_of req)
  /\ exists system user,
       chat_messages req = [SystemMessage system; HumanMessage user].
Proof.
  intros [(title & theme & chars & plot & n & ->)
         |[(outline & prev & ctitle & i & ->)
          |[(text & ->)|(text & ->)]]];
    (split; [reflexivity|]); (split; [eexists; reflexivity|]);
    eexists _, _; reflexivity.
Qed.


(** A remote that answers the outline request and raises on the next
    call: the run ends at the write call of chapter 1. *)
Example aborted_run :
  (session one_shot_remote ["Stars"; "space"; "a trip"; "3"]).1
  = Raised RemoteError
  /\ requests (session_log one_shot_remote ["Stars"; "space"; "a trip"; "3"])
     = [ GenerateOutline.request "Stars" "space"
           NovelAgent.default_main_characters "a trip" 3;
         WriteChapter.request "an outline" "(无)" "Stars - 第1章" 1 None ]
  /\ printed (session_log one_shot_remote ["Stars"; "space"; "a trip"; "3"])
     = [ nl +:+ "[系统] 正在生成大纲，请稍候..." +:+ nl;
         "=== 小说大纲 ===";
         "an outline";
         nl +:+ "[系统] 开始写第1章：《Stars - 第1章》..." ].
Proof. repeat split; reflexivity. Qed.

(** X6: every request of every run, aborted or not, is sent to the client
    of the defaults (model deepseek-chat, temperature 0.7, the base URL and
    the key of the source) and consists of the system prompt of one of the
    four actions followed by one human message. *)
Theorem every_request_is_well_formed remote lines :
  Forall
    (fun req =>
       client req = default_client
       /\ is_Some (kind_of req)
       /\ exists system user,
            chat_messages req = [SystemMessage system; HumanMessage user])
    (requests (session_log remote lines)).
Proof.
  unfold session_log.
  destruct (lt_dec (length lines) 4) as [Hshort|Hlong].
  - destruct (short_session remote lines Hshort)
      as (before & prompt & -> & Hreg & Hreq).
    cbn [snd log]. rewrite requests_app, Hreq. constructor.
  - destruct lines as [|t [|th [|p [|c rest]]]]; try (cbn in Hlong; lia).
    destruct (long_session remote t th p c rest) as [_ Hend].
    destruct (session remote (t :: th :: p :: c :: rest)) as [[[]|e] st];
      cbn [fst snd] in *.
    + eapply Forall_impl; [exact (regular_requests _ Hend)|].
      apply action_request_shape.
    + destruct e; try contradiction.
      destruct Hend as (before & req & -> & Hreg & Hact).
      rewrite requests_app. apply Forall_app. split.
      * eapply Forall_impl; [exact (regular_requests _ Hreg)|].
        apply action_request_shape.
      * constructor; [now apply action_request_shape|constructor].
Qed.

(** X7: the run reads the first four lines of the input and no more,
    however many chapters are asked for and whether it is aborted or not. *)
Theorem run_reads_four_lines remote lines :
  stdin (session remote lines).2 = drop 4 lines.
Proof.
  destruct (lt_dec (length lines) 4) as [Hshort|Hlong].
  - destruct (short_session remote lines Hshort)
      as (before & prompt & -> & _).
    cbn [snd stdin]. symmetry. apply drop_ge. lia.
  - destruct lines as [|t [|th [|p [|c rest]]]]; try (cbn in Hlong; lia).
    exact (proj1 (long_session remote t th p c rest)).
Qed.

(** X8: with fewer than four lines of input the run raises [EOFError]
    and has made no request.  This holds for a missing count line too: the
    default of 5 is for a line that does not parse, not for a line that is
    not there. *)
Theorem short_input_raises_eof remote lines :
  (length lines < 4)%nat ->
  (session remote lines).1 = Raised EOFError
  /\ requests (session_log remote lines) = [].
Proof.
  intros Hshort. unfold session_log.
  destruct (short_session remote lines Hshort)
    as (before & prompt & -> & _ & Hreq).
  split; [reflexivity|].
  cbn [snd log]. now rewrite requests_app, Hreq.
Qed.

Lemma short_input_raises_eof_witness :
  (length ["Stars"; "space"; "a trip"] < 4)%nat
  /\ (session echo_remote ["Stars"; "space"; "a trip"]).1 = Raised EOFError
  /\ requests (session_log echo_remote ["Stars"; "space"; "a trip"]) = [].
Proof.
  assert (H : (length ["Stars"; "space"; "a trip"] < 4)%nat) by (cbn; lia).
  split; [exact H|].
  exact (short_input_raises_eof echo_remote ["Stars"; "space"; "a trip"] H).
Defined.

(** ** The count line: what [str] prints, [int] reads back *)











(** ** White space around the count *)

Lemma decode_cons a s1 :
  Py.decode (String a s1)
  = let b0 := Py.byte_val a in
    if (b0 <? 128)%N then b0 :: Py.decode s1
    else if Py.in_range 194 223 b0 then
      match s1 with
      | String a1 s2 =>
        let b1 := Py.byte_val a1 in
        if Py.is_cont b1
        then ((b0 - 192) * 64 + (b1 - 128))%N :: Py.decode s2
        else Py.escaped b0 :: Py.decode s1
      | EmptyString => Py.escaped b0 :: Py.decode s1
      end
    else if Py.in_range 224 239 b0 then
      match s1 with
      | String a1 (String a2 s3) =>
        let b1 := Py.byte_val a1 in
        let b2 := Py.byte_val a2 in
        if Py.second_ok b0 b1 && Py.is_cont b2
        then ((b0 - 224) * 4096 + (b1 - 128) * 64 + (b2 - 128))%N
             :: Py.decode s3
        else Py.escaped b0 :: Py.decode s1
      | _ => Py.escaped b0 :: Py.decode s1
      end
    else if Py.in_range 240 244 b0 then
      match s1 with
      | String a1 (String a2 (String a3 s4)) =>
        let b1 := Py.byte_val a1 in
        let b2 := Py.byte_val a2 in
        let b3 := Py.byte_val a3 in
        if Py.second_ok b0 b1 && Py.is_cont b2 && Py.is_cont b3
        then ((b0 - 240) * 262144 + (b1 - 128) * 4096
              + (b2 - 128) * 64 + (b3 - 128))%N :: Py.decode s4
        else Py.escaped b0 :: Py.decode s1
      | _ => Py.escaped b0 :: Py.decode s1
      end
    else Py.escaped b0 :: Py.decode s1.
Proof. destruct s1 as [|a1 [|a2 [|a3 s4]]]; reflexivity. Qed.

Lemma is_cont_ascii b : (b <? 128)%N = true -> Py.is_cont b = false.
Proof. unfold Py.is_cont. intros H. apply N.ltb_lt in H.
  apply andb_false_iff. left. apply N.leb_gt. exact H. Qed.

Lemma second_ok_ascii b0 b : (b <? 128)%N = true -> Py.second_ok b0 b = false.
Proof.
  intros H. pose proof (is_cont_ascii b H) as Hc. apply N.ltb_lt in H.
  unfold Py.second_ok, Py.in_range.
  repeat match goal with |- context [if ?c then _ else _] => destruct c end;
    try exact Hc; apply andb_false_iff; left; apply N.leb_gt; lia.
Qed.

Lemma decode_app_ascii n : forall s a t,
  (String.length s <= n)%nat ->
  (Py.byte_val a <? 128)%N = true ->
  Py.decode (s +:+ String a t) = Py.decode s ++ Py.decode (String a t).
Proof.
  induction n as [|n IH]; intros s a t Hlen Ha.
  - destruct s; [reflexivity|cbn in Hlen; lia].
  - destruct s as [|c s1]; [reflexivity|].
    change (String c s1 +:+ String a t) with (String c (s1 +:+ String a t)). cbv beta match.
    rewrite (decode_cons c (s1 +:+ String a t)), (decode_cons c s1).
    cbv zeta.
    pose proof (is_cont_ascii _ Ha) as Hcont.
    pose proof (fun b0 => second_ok_ascii b0 _ Ha) as Hsec.
    cbn [String.length] in Hlen.
    destruct (Py.byte_val c <? 128)%N.
    { cbn [app]. f_equal. apply IH; [lia|exact Ha]. }
    destruct (Py.in_range 194 223 (Py.byte_val c)).
    { destruct s1 as [|c1 s2].
      - change ("" +:+ String a t) with (String a t). cbv beta match. rewrite Hcont. reflexivity.
      - change (String c1 s2 +:+ String a t) with (String c1 (s2 +:+ String a t)). cbv beta match.
        destruct (Py.is_cont (Py.byte_val c1)); cbn [app]; f_equal.
        + apply IH; [cbn [String.length] in Hlen; lia|exact Ha].
        + apply (IH (String c1 s2)); [lia|exact Ha]. }
    destruct (Py.in_range 224 239 (Py.byte_val c)).
    { destruct s1 as [|c1 [|c2 s3]].
      - change ("" +:+ String a t) with (String a t). cbv beta match.
        destruct t as [|a' t']; [reflexivity|].
        rewrite Hsec. reflexivity.
      - change (String c1 "" +:+ String a t) with (String c1 (String a t)). cbv beta match.
        rewrite Hcont, andb_false_r. cbn [app]. f_equal.
        apply (IH (String c1 "")); [cbn [String.length] in *; lia|exact Ha].
      - change (String c1 (String c2 s3) +:+ String a t)
          with (String c1 (String c2 (s3 +:+ String a t))). cbv beta match.
        destruct (Py.second_ok (Py.byte_val c) (Py.byte_val c1)
                  && Py.is_cont (Py.byte_val c2)); cbn [app]; f_equal.
        + apply IH; [cbn [String.length] in Hlen; lia|exact Ha].
        + apply (IH (String c1 (String c2 s3))); [lia|exact Ha]. }
    destruct (Py.in_range 240 244 (Py.byte_val c)).
    { destruct s1 as [|c1 [|c2 [|c3 s4]]].
      - change ("" +:+ String a t) with (String a t). cbv beta match.
        destruct t as [|a' [|a'' t'']]; [reflexivity|reflexivity|].
        rewrite Hsec. reflexivity.
      - change (String c1 "" +:+ String a t) with (String c1 (String a t)). cbv beta match.
        destruct t as [|a' t'].
        + cbn [app]. f_equal.
          apply (IH (String c1 "")); [cbn [String.length] in *; lia|exact Ha].
        + rewrite Hcont, andb_false_r. cbn [andb app]. f_equal.
          apply (IH (String c1 "")); [cbn [String.length] in *; lia|exact Ha].
      - change (String c1 (String c2 "") +:+ String a t)
          with (String c1 (String c2 (String a t))). cbv beta match.
        rewrite Hcont, andb_false_r. cbn [app]. f_equal.
        apply (IH (String c1 (String c2 "")));
          [cbn [String.length] in *; lia|exact Ha].
      - change (String c1 (String c2 (String c3 s4)) +:+ String a t)
          with (String c1 (String c2 (String c3 (s4 +:+ String a t)))). cbv beta match.
        destruct (Py.second_ok (Py.byte_val c) (Py.byte_val c1)
                  && Py.is_cont (Py.byte_val c2)
                  && Py.is_cont (Py.byte_val c3)); cbn [app]; f_equal.
        + apply IH; [cbn [String.length] in Hlen; lia|exact Ha].
        + apply (IH (String c1 (String c2 (String c3 s4)))); [lia|exact Ha]. }
    cbn [app]. f_equal. apply IH; [lia|exact Ha].
Qed.

Lemma append_nil_r (s : string) : s +:+ "" = s.
Proof.
  induction s as [|a s IH]; [reflexivity|].
  change (String a (s +:+ "") = String a s). now rewrite IH.
Qed.

Lemma decode_blank w :
  ascii_blank w = true ->
  Forall (fun c => Py.isspace c = true) (Py.decode w)
  /\ (forall s, Py.decode (w +:+ s) = Py.decode w ++ Py.decode s)
  /\ (forall s, Py.decode (s +:+ w) = Py.decode s ++ Py.decode w).
Proof.
  intros Hw. split; [|split].
  - induction w as [|a w IH]; [constructor|].
    cbn [ascii_blank] in Hw.
    apply andb_true_iff in Hw as [Ha Hw]. apply andb_true_iff in Ha as [Ha Hs].
    rewrite decode_cons. cbv zeta. rewrite Ha.
    constructor; [exact Hs|now apply IH].
  - induction w as [|a w IH]; intros s; [reflexivity|].
    cbn [ascii_blank] in Hw.
    apply andb_true_iff in Hw as [Ha Hw]. apply andb_true_iff in Ha as [Ha _].
    change (String a w +:+ s) with (String a (w +:+ s)).
    rewrite !decode_cons. cbv zeta. rewrite Ha.
    cbn [app]. f_equal. now apply IH.
  - intros s. destruct w as [|a w].
    + now rewrite append_nil_r, app_nil_r.
    + cbn [ascii_blank] in Hw.
      apply andb_true_iff in Hw as [Ha _]. apply andb_true_iff in Ha as [Ha _].
      now apply (decode_app_ascii (String.length s)).
Qed.

Lemma lstrip_by_spaces p w l :
  Forall (fun c => p c = true) w ->
  Py.lstrip_by p (w ++ l) = Py.lstrip_by p l.
Proof.
  induction 1 as [|c w Hc _ IH]; [reflexivity|].
  cbn [app Py.lstrip_by]. now rewrite Hc.
Qed.

Lemma lstrip_by_app p l w :
  Py.lstrip_by p (l ++ w)
  = match Py.lstrip_by p l with
    | [] => Py.lstrip_by p w
    | c :: r => (c :: r) ++ w
    end.
Proof.
  induction l as [|a l IH]; [reflexivity|].
  cbn [app Py.lstrip_by]. destruct (p a); [exact IH|reflexivity].
Qed.

(** White space around a text is stripped with the white space of the
    text itself. *)
Lemma strip_by_spaces p w1 l w2 :
  Forall (fun c => p c = true) w1 ->
  Forall (fun c => p c = true) w2 ->
  Py.strip_by p (w1 ++ l ++ w2) = Py.strip_by p l.
Proof.
  intros H1 H2. unfold Py.strip_by.
  rewrite (lstrip_by_spaces p w1 _ H1), lstrip_by_app.
  destruct (Py.lstrip_by p l) as [|c r].
  - rewrite <- (app_nil_r w2), (lstrip_by_spaces p w2 [] H2). reflexivity.
  - rewrite rev_app_distr.
    rewrite (lstrip_by_spaces p (rev w2)) by now apply Forall_rev.
    reflexivity.
Qed.

(** X10: ASCII white space before and after the count does not change
    it: the line is stripped before it is parsed. *)
Theorem blanks_around_count_are_ignored (w1 w2 s : string) :
  ascii_blank w1 = true ->
  ascii_blank w2 = true ->
  effective_chapter_count (w1 +:+ s +:+ w2) = effective_chapter_count s.
Proof.
  intros H1 H2. unfold effective_chapter_count.
  destruct (decode_blank w1 H1) as (Hs1 & Hpre & _).
  destruct (decode_blank w2 H2) as (Hs2 & _ & Hpost).
  rewrite Hpre, Hpost. unfold Py.strip.
  now rewrite (strip_by_spaces Py.isspace _ _ _ Hs1 Hs2).
Qed.

Lemma blanks_around_count_are_ignored_witness :
  ascii_blank "  " = true
  /\ ascii_blank (String (ascii_of_N 9) nl) = true
  /\ effective_chapter_count
       ("  " +:+ "12" +:+ String (ascii_of_N 9) nl)
     = 12.
Proof.
  split; [reflexivity|]. split; [reflexivity|].
  exact (blanks_around_count_are_ignored "  " (String (ascii_of_N 9) nl) "12"
           eq_refl eq_refl).
Defined.

(** ** What a run takes from a response *)

Lemma alike_emit st1 st2 e1 e2 :
  alike st1 st2 ->
  requests [e1] = requests [e2] ->
  printed [e1] = printed [e2] ->
  alike (emit e1 st1) (emit e2 st2).
Proof.
  intros (Hin & Hreq & Hpr) H1 H2. split; [exact Hin|].
  cbn [emit log]. rewrite !requests_app, !printed_app.
  now rewrite Hreq, Hpr, H1, H2.
Qed.

Lemma ra_ret {A} (a : A) : rel_alike (ret a) (ret a).
Proof. intros st1 st2 H. cbn. now split. Qed.

Lemma ra_raise {A} e : rel_alike (@raise A e) (raise e).
Proof. intros st1 st2 H. cbn. now split. Qed.

Lemma ra_bind {A B} (m1 m2 : M A) (k1 k2 : A -> M B) :
  rel_alike m1 m2 ->
  (forall a, rel_alike (k1 a) (k2 a)) ->
  rel_alike (bind m1 k1) (bind m2 k2).
Proof.
  intros Hm Hk st1 st2 H. unfold bind. specialize (Hm st1 st2 H).
  destruct (m1 st1) as [[a1|e1] st1'], (m2 st2) as [[a2|e2] st2'];
    try contradiction.
  - destruct Hm as [<- H']. exact (Hk a1 st1' st2' H').
  - exact Hm.
Qed.

Lemma ra_print text : rel_alike (print text) (print text).
Proof.
  intros st1 st2 H. cbn. split; [reflexivity|]. now apply alike_emit.
Qed.

Lemma ra_input prompt : rel_alike (input prompt) (input prompt).
Proof.
  intros st1 st2 H. pose proof H as (Hin & Hreq & Hpr).
  unfold input. rewrite <- Hin.
  destruct (stdin st1) as [|line rest].
  - split; [reflexivity|]. now apply alike_emit.
  - split; [reflexivity|]. split; [reflexivity|].
    cbn [log]. rewrite !requests_app, !printed_app. now rewrite Hreq, Hpr.
Qed.

Lemma ra_int s : rel_alike (int_ s) (int_ s).
Proof. unfold int_. destruct (Py.int s); [apply ra_ret|apply ra_raise]. Qed.

Lemma ra_try_except {A} (m1 m2 : M A) e h1 h2 :
  rel_alike m1 m2 -> rel_alike h1 h2 ->
  rel_alike (try_except m1 e h1) (try_except m2 e h2).
Proof.
  intros Hm Hh st1 st2 H. unfold try_except. specialize (Hm st1 st2 H).
  destruct (m1 st1) as [[a1|e1] st1'], (m2 st2) as [[a2|e2] st2'];
    try contradiction; [exact Hm|].
  destruct Hm as [<- H'].
  destruct e, e1; first [exact (Hh st1' st2' H') | now split].
Qed.

Lemma ra_for_each {S} xs (body1 body2 : Z -> S -> M S) :
  (forall x s, rel_alike (body1 x s) (body2 x s)) ->
  forall s, rel_alike (for_each xs body1 s) (for_each xs body2 s).
Proof.
  intros Hbody. induction xs as [|x xs IH]; intros s.
  - apply ra_ret.
  - cbn [for_each]. apply ra_bind; [apply Hbody|exact IH].
Qed.

Section SameTexts.

Variables remote1 remote2 : Remote.
Hypothesis Hsame : same_texts remote1 remote2.

Lemma ra_call messages model temperature :
  rel_alike (call_deepseek_chat remote1 messages model temperature)
            (call_deepseek_chat remote2 messages model temperature).
Proof.
  intros st1 st2 H. pose proof H as (Hin & Hreq & Hpr).
  unfold call_deepseek_chat, bind, invoke, ret. rewrite <- Hreq.
  pose proof (Hsame (length (requests (log st1)))
                (chat_request messages model temperature)) as Htext.
  destruct (remote1 _ _) as [r1|], (remote2 _ _) as [r2|];
    try discriminate Htext.
  - injection Htext as Htext. split; [exact Htext|]. now apply alike_emit.
  - split; [reflexivity|]. now apply alike_emit.
Qed.

Lemma ra_chapter_cycle title outline i lists :
  rel_alike (NovelAgent.chapter_cycle remote1 title outline i lists)
            (NovelAgent.chapter_cycle remote2 title outline i lists).
Proof.
  unfold NovelAgent.chapter_cycle.
  apply ra_bind; [apply ra_print|]. intros _.
  apply ra_bind; [apply ra_call|]. intros chapter_text.
  apply ra_bind; [apply ra_print|]. intros _.
  apply ra_bind; [apply ra_print|]. intros _.
  apply ra_bind; [apply ra_call|]. intros review_text.
  apply ra_bind; [apply ra_print|]. intros _.
  apply ra_bind; [apply ra_call|]. intros summary_text.
  apply ra_bind; [apply ra_print|]. intros _.
  apply ra_ret.
Qed.

Lemma ra_run : rel_alike (NovelAgent.run remote1) (NovelAgent.run remote2).
Proof.
  unfold NovelAgent.run.
  apply ra_bind.
  { unfold NovelAgent.read_spec, NovelAgent.read_chapter_count.
    apply ra_bind; [apply ra_input|]. intros title.
    apply ra_bind; [apply ra_input|]. intros theme.
    apply ra_bind; [apply ra_input|]. intros plot.
    apply ra_bind.
    - apply ra_bind; [apply ra_input|]. intros line.
      apply ra_try_except; [apply ra_int|apply ra_ret].
    - intros n. apply ra_ret. }
  intros spec.
  apply ra_bind; [apply ra_print|]. intros _.
  apply ra_bind; [apply ra_call|]. intros outline.
  apply ra_bind; [apply ra_print|]. intros _.
  apply ra_bind; [apply ra_print|]. intros _.
  apply ra_bind.
  { unfold NovelAgent.write_chapters. apply ra_for_each.
    intros x s. apply ra_chapter_cycle. }
  intros lists.
  apply ra_bind; [apply ra_print|]. intros _.
  apply ra_bind; [apply ra_print|]. intros _.
  apply ra_bind; [apply ra_print|]. intros _.
  apply ra_print.
Qed.

End SameTexts.

(** X11: a run takes nothing from a response but its content, and a
    response without content is to it a response with the empty content.
    Two remotes whose answers carry the same texts (and that raise on the
    same calls) give, on the same input, the same requests, the same printed
    texts and the same end. *)
Theorem run_sees_only_the_content remote1 remote2 lines :
  same_texts remote1 remote2 ->
  requests (session_log remote1 lines) = requests (session_log remote2 lines)
  /\ printed (session_log remote1 lines) = printed (session_log remote2 lines)
  /\ (session remote1 lines).1 = (session remote2 lines).1.
Proof.
  intros Hsame. unfold session_log, session.
  pose proof (ra_run remote1 remote2 Hsame (start lines) (start lines)
                (conj eq_refl (conj eq_refl eq_refl))) as H.
  destruct (NovelAgent.run remote1 (start lines)) as [[a1|e1] st1],
           (NovelAgent.run remote2 (start lines)) as [[a2|e2] st2];
    try contradiction; cbn [fst snd];
    destruct H as [-> (_ & Hreq & Hpr)]; now repeat split.
Qed.

Lemma mute_same_as_empty : same_texts mute_remote (const_remote "").
Proof. intros k req. reflexivity. Qed.

(** Responses with no content against responses with the empty content. *)
Lemma run_sees_only_the_content_witness :
  same_texts mute_remote (const_remote "")
  /\ printed (session_log mute_remote ["Stars"; "space"; "a trip"; "2"])
     = printed (session_log (const_remote "")
                  ["Stars"; "space"; "a trip"; "2"])
  /\ (session mute_remote ["Stars"; "space"; "a trip"; "2"]).1 = Returned tt.
Proof.
  destruct (run_sees_only_the_content mute_remote (const_remote "")
              ["Stars"; "space"; "a trip"; "2"] mute_same_as_empty)
    as (_ & Hpr & Hend).
  split; [exact mute_same_as_empty|]. split; [exact Hpr|].
  rewrite Hend. reflexivity.
Defined.

(** ** The order of the requests, in every run *)

Lemma expects_silent k st e :
  expects k st -> requests [e] = [] -> expects k (emit e st).
Proof.
  intros [Hk Hn] He. unfold expects. cbn [emit log].
  rewrite requests_app, He, app_nil_r. now split.
Qed.

Lemma it_ret {A} k (a : A) : in_turn k k (ret a).
Proof. intros st H. exact H. Qed.

Lemma it_bind {A B} k1 k2 k3 (m : M A) (f : A -> M B) :
  in_turn k1 k2 m -> (forall a, in_turn k2 k3 (f a)) ->
  in_turn k1 k3 (bind m f).
Proof.
  intros Hm Hf st H. unfold bind. specialize (Hm st H).
  destruct (m st) as [[a|e] st1]; cbn [fst snd] in *.
  - exact (Hf a st1 Hm).
  - exact Hm.
Qed.

Lemma it_print k text : in_turn k k (print text).
Proof. intros st H. cbn. now apply expects_silent. Qed.

Lemma it_input k prompt : in_turn k k (input prompt).
Proof.
  intros st H. unfold input. destruct (stdin st) as [|line rest]; cbn.
  - destruct (expects_silent k st (EInput prompt None) H eq_refl) as [Hk _].
    exact Hk.
  - exact (expects_silent k st (EInput prompt (Some line)) H eq_refl).
Qed.

Lemma it_call k remote messages :
  kind_of (chat_request messages None None) = Some k ->
  in_turn k (next_kind k) (call_deepseek_chat remote messages None None).
Proof.
  intros Hkind st [Hk Hn].
  assert (Hnew :
    kind_of <$> (requests (log st) ++ [chat_request messages None None])
    = (fun n => Some (kind_at n))
        <$> seq 0 (length (requests (log st)
                           ++ [chat_request messages None None]))).
  { rewrite length_app. cbn [length]. rewrite Nat.add_1_r, seq_S, !fmap_app.
    rewrite <- Hk. cbn [fmap list_fmap plus]. now rewrite Hkind, Hn. }
  unfold call_deepseek_chat, bind, invoke, ret.
  destruct (remote _ _) as [response|];
    unfold expects; cbn [fst snd emit log]; rewrite !requests_app.
  - split; [exact Hnew|].
    rewrite length_app. cbn [length].
    rewrite Nat.add_1_r. cbn [kind_at]. now rewrite Hn.
  - exact Hnew.
Qed.

Lemma it_for_each {S} k (body : Z -> S -> M S) :
  (forall x s, in_turn k k (body x s)) ->
  forall xs s, in_turn k k (for_each xs body s).
Proof.
  intros Hbody. induction xs as [|x xs IH]; intros s.
  - apply it_ret.
  - cbn [for_each]. eapply it_bind; [apply Hbody|exact IH].
Qed.

Lemma it_chapter_cycle remote title outline i lists :
  in_turn KWrite KWrite
    (NovelAgent.chapter_cycle remote title outline i lists).
Proof.
  unfold NovelAgent.chapter_cycle.
  eapply it_bind; [apply it_print|]. intros _.
  eapply it_bind; [apply (it_call KWrite); reflexivity|]. intros chapter_text.
  eapply it_bind; [apply it_print|]. intros _.
  eapply it_bind; [apply it_print|]. intros _.
  eapply it_bind; [apply (it_call KReview); reflexivity|]. intros review_text.
  eapply it_bind; [apply it_print|]. intros _.
  eapply it_bind; [apply (it_call KSummarize); reflexivity|].
  intros summary_text.
  eapply it_bind; [apply it_print|]. intros _.
  apply it_ret.
Qed.

Lemma it_run remote : in_turn KOutline KWrite (NovelAgent.run remote).
Proof.
  unfold NovelAgent.run.
  eapply it_bind.
  { unfold NovelAgent.read_spec, NovelAgent.read_chapter_count.
    eapply it_bind; [apply it_input|]. intros title.
    eapply it_bind; [apply it_input|]. intros theme.
    eapply it_bind; [apply it_input|]. intros plot.
    eapply it_bind.
    - eapply it_bind; [apply it_input|]. intros line.
      unfold try_except, int_. intros st H.
      destruct (Py.int (Py.strip (Py.decode line))); exact H.
    - intros n. apply it_ret. }
  intros spec.
  eapply it_bind; [apply it_print|]. intros _.
  eapply it_bind; [apply (it_call KOutline); reflexivity|]. intros outline.
  eapply it_bind; [apply it_print|]. intros _.
  eapply it_bind; [apply it_print|]. intros _.
  eapply it_bind.
  { unfold NovelAgent.write_chapters. apply it_for_each.
    intros x s. apply it_chapter_cycle. }
  intros lists.
  eapply it_bind; [apply it_print|]. intros _.
  eapply it_bind; [apply it_print|]. intros _.
  eapply it_bind; [apply it_print|]. intros _.
  apply it_print.
Qed.

(** X12: in every run, aborted or not, the requests come in one order:
    the outline request first, then write, review, summarize, write, review,
    summarize, and so on.  The request number [n] of the run is of the kind
    [kind_at n]. *)
Theorem requests_come_in_turn remote lines :
  kind_of <$> requests (session_log remote lines)
  = (fun n => Some (kind_at n))
      <$> seq 0 (length (requests (session_log remote lines))).
Proof.
  unfold session_log, session.
  pose proof (it_run remote (start lines) (conj eq_refl eq_refl)) as H.
  destruct (NovelAgent.run remote (start lines)) as [[a|e] st];
    cbn [fst snd] in *; [exact (proj1 H)|exact H].
Qed.
